(** * Fastro request pipeline: a shallow embedding of [core/server.ts]

    The development follows the class [Fastro]: the response sender
    ([send]), the payload decoder for url-encoded forms, the query API of
    the request context, the dispatcher ([handleRoute] and the lookups it
    falls through to), the middleware runner and the per-request error
    boundary.

    Conventions.
    - A JS string is a [string] holding its UTF-8 bytes.
    - Exceptions are values of [Error] (name and message); code that can
      throw lives in the monad [U] (request-local state plus exceptions).
    - The dispatcher lives in [M], which is [U] plus a write-only trace of
      ghost events marking the points the properties talk about (entering
      the routing step, invoking a middleware or a terminal handler). User
      handlers have type [U unit], so they cannot touch that trace.
    - Helpers of the repository that the class imports from [utils.ts] and
      [constant.ts] ([createError], [validateObject], [NOT_FOUND],
      [CONTENT_TYPE]) and the JS built-ins [decodeURIComponent] and
      [JSON.parse] are Section variables: every theorem holds for any
      behaviour of theirs. *)

From Stdlib Require Import ZArith Ascii Lia.
From stdpp Require Import base option list gmap strings pretty.

Set Warnings "-register-all".
Local Open Scope string_scope.
Local Open Scope list_scope.
Local Open Scope Z_scope.

(** ** Strings, the way the code uses them *)

Module Str.

(** [s.includes(p)] *)
Fixpoint includes (p s : string) : bool :=
  String.prefix p s ||
  match s with
  | EmptyString => false
  | String _ s' => includes p s'
  end.

(** [s.split(sep)] for a one-character separator: never empty. *)
Fixpoint split (sep : ascii) (s : string) : list string :=
  match s with
  | EmptyString => [EmptyString]
  | String c s' =>
      if Ascii.eqb c sep then EmptyString :: split sep s'
      else match split sep s' with
           | h :: t => String c h :: t
           | [] => [String c EmptyString]
           end
  end.

Fixpoint drop (n : nat) (s : string) : string :=
  match n, s with
  | O, _ => s
  | S n', String _ s' => drop n' s'
  | S _, EmptyString => EmptyString
  end.

(** [s.replace(p, "")] with a string pattern: the first occurrence of
    [p] is removed, the rest is left alone. *)
Fixpoint remove_first (p s : string) : string :=
  if String.prefix p s then drop (String.length p) s
  else match s with
       | EmptyString => EmptyString
       | String c s' => String c (remove_first p s')
       end.

Fixpoint join (sep : string) (l : list string) : string :=
  match l with
  | [] => ""
  | [x] => x
  | x :: l' => x +:+ sep +:+ join sep l'
  end.

(** ASCII lower-casing, as [Headers] applies it to header names. *)
Definition lower_ascii (c : ascii) : ascii :=
  let n := N_of_ascii c in
  if ((65 <=? n) && (n <=? 90))%N then ascii_of_N (n + 32) else c.

Fixpoint lower (s : string) : string :=
  match s with
  | EmptyString => EmptyString
  | String c s' => String (lower_ascii c) (lower s')
  end.

End Str.

(** ** JS values *)

(** Numbers: the integer-valued doubles that print without an exponent,
    [NaN] and the infinities. Fractions are outside the model. *)
Inductive JsNumber :=
| NumInt (z : Z)
| NumNaN
| NumInfinity (negative : bool).

Inductive JsValue :=
| VUndefined
| VNull
| VBool (b : bool)
| VNumber (n : JsNumber)
| VBigInt (z : Z)
| VString (s : string)
| VSymbol (description : string)
| VFunction (source : string)
| VBytes (bytes : list Byte.byte)              (* Uint8Array *)
| VArray (items : list JsValue)
| VObject (props : list (string * JsValue)).   (* own data properties, in order *)

Record Error := mkError { name : string; message : string }.

Definition new_Error (msg : string) : Error := mkError "Error" msg.
Definition new_TypeError (msg : string) : Error := mkError "TypeError" msg.

Inductive Result (A : Type) :=
| Returns (a : A)
| Throws (e : Error).
Arguments Returns {A} a.
Arguments Throws {A} e.

Definition number_toString (n : JsNumber) : string :=
  match n with
  | NumInt z => pretty z
  | NumNaN => "NaN"
  | NumInfinity false => "Infinity"
  | NumInfinity true => "-Infinity"
  end.

(** [x.toString()] on the primitives [send] calls it on. *)
Definition toString (v : JsValue) : string :=
  match v with
  | VNumber n => number_toString n
  | VBool true => "true"
  | VBool false => "false"
  | VBigInt z => pretty z
  | VFunction src => src
  | VSymbol d => "Symbol(" +:+ d +:+ ")"
  | _ => ""
  end.

(** JS truthiness of a string / a number. *)
Definition truthy_string (s : string) : bool :=
  match s with EmptyString => false | _ => true end.

Definition truthy_status (n : Z) : bool := negb (n =? 0).

(** ** [JSON.stringify] *)

Module JSON.

(** The double-quote character. *)
Definition dquote : ascii := ascii_of_N 34.

Definition hex_digit (n : N) : ascii :=
  ascii_of_N (if (n <? 10)%N then 48 + n else 87 + n).

(** One character of [QuoteJSONString]. *)
Definition quote_char (c : ascii) : string :=
  let n := N_of_ascii c in
  if (n =? 34)%N then String "\" (String dquote "")
  else if (n =? 92)%N then "\\"
  else if (n =? 8)%N then "\b"
  else if (n =? 9)%N then "\t"
  else if (n =? 10)%N then "\n"
  else if (n =? 12)%N then "\f"
  else if (n =? 13)%N then "\r"
  else if (n <? 32)%N then
    "\u00" +:+ String (hex_digit (n / 16)) (String (hex_digit (n mod 16)) "")
  else String c "".

Fixpoint quote_body (s : string) : string :=
  match s with
  | EmptyString => ""
  | String c s' => quote_char c +:+ quote_body s'
  end.

Definition quote (s : string) : string :=
  String dquote (quote_body s +:+ String dquote "").

End JSON.

Module JSON_stringify.
Import JSON.

(** [SerializeJSONProperty]: [None] is JS [undefined] (the value has no
    JSON text); a [BigInt] anywhere makes the whole call throw. *)
Fixpoint serialize (v : JsValue) : Result (option string) :=
  match v with
  | VUndefined | VSymbol _ | VFunction _ => Returns None
  | VNull => Returns (Some "null")
  | VBool true => Returns (Some "true")
  | VBool false => Returns (Some "false")
  | VNumber (NumInt z) => Returns (Some (pretty z))
  | VNumber _ => Returns (Some "null")
  | VBigInt _ => Throws (new_TypeError "Do not know how to serialize a BigInt")
  | VString s => Returns (Some (quote s))
  | VBytes bs =>
      Returns (Some ("{" +:+
        Str.join "," (imap (fun i b => quote (pretty i) +:+ ":" +:+ pretty (Byte.to_N b)) bs)
        +:+ "}"))
  | VArray items =>
      match (fix elements (l : list JsValue) : Result (list string) :=
               match l with
               | [] => Returns []
               | x :: l' =>
                   match serialize x with
                   | Throws e => Throws e
                   | Returns o =>
                       match elements l' with
                       | Throws e => Throws e
                       | Returns r => Returns (default "null" o :: r)
                       end
                   end
               end) items with
      | Throws e => Throws e
      | Returns parts => Returns (Some ("[" +:+ Str.join "," parts +:+ "]"))
      end
  | VObject props =>
      match (fix members (l : list (string * JsValue)) : Result (list string) :=
               match l with
               | [] => Returns []
               | (k, x) :: l' =>
                   match serialize x with
                   | Throws e => Throws e
                   | Returns o =>
                       match members l' with
                       | Throws e => Throws e
                       | Returns r =>
                           Returns (match o with
                                    | Some t => (quote k +:+ ":" +:+ t) :: r
                                    | None => r
                                    end)
                       end
                   end
               end) props with
      | Throws e => Throws e
      | Returns parts => Returns (Some ("{" +:+ Str.join "," parts +:+ "}"))
      end
  end.

End JSON_stringify.

(** [JSON.stringify(v)]: a text, [undefined], or a thrown [TypeError]. *)
Definition JSON_stringify (v : JsValue) : Result (option string) :=
  JSON_stringify.serialize v.

(** ** Headers, responses and the request-local state *)

(** A [Headers] object: names are stored lower-cased, [set] overwrites. *)
Definition Headers := list (string * string).

Module Hdr.

Definition get (name : string) (h : Headers) : option string :=
  snd <$> List.find (fun kv => String.eqb (fst kv) (Str.lower name)) h.

Definition set (name value : string) (h : Headers) : Headers :=
  let n := Str.lower name in
  if existsb (fun kv => String.eqb (fst kv) n) h
  then map (fun kv => if String.eqb (fst kv) n then (n, value) else kv) h
  else h ++ [(n, value)].

End Hdr.

Inductive Body :=
| BodyText (s : string)
| BodyBytes (bytes : list Byte.byte).

(** The argument of [req.respond]: every field is optional. *)
Record Response := mkResponse {
  headers : option Headers;
  status : option Z;
  body : option Body
}.

(** What one request owns and mutates: the staged status and content type,
    the staged response headers (cookies), and, for observation, the calls
    made to [req.respond], the lines written by [console.error] and the
    rejections of promises nobody awaits. *)
Record World := mkWorld {
  httpStatus : option Z;
  contentType : option string;
  response_headers : Headers;
  responded : list Response;
  console : list Error;
  unhandled : list Error
}.

Definition fresh_world : World := mkWorld None None [] [] [] [].

(** ** The monad of request code: state and exceptions *)

Definition U (A : Type) : Type := World -> Result A * World.

Module UM.

Definition ret {A} (a : A) : U A := fun w => (Returns a, w).

Definition bind {A B} (m : U A) (k : A -> U B) : U B :=
  fun w => match m w with
           | (Returns a, w') => k a w'
           | (Throws e, w') => (Throws e, w')
           end.

Definition throw {A} (e : Error) : U A := fun w => (Throws e, w).

(** [try { m } catch (error) { h error }] *)
Definition try_catch {A} (m : U A) (h : Error -> U A) : U A :=
  fun w => match m w with
           | (Returns a, w') => (Returns a, w')
           | (Throws e, w') => h e w'
           end.

Definition of_result {A} (r : Result A) : U A := fun w => (r, w).

Definition get : U World := fun w => (Returns w, w).

Definition modify (f : World -> World) : U unit := fun w => (Returns tt, f w).

(** Calling an [async] function without awaiting it: the caller gets a
    promise and never sees the exception. Suspension points are not
    modelled; the body runs where it is called. *)
Definition detached (m : U unit) : U unit :=
  fun w => match m w with
           | (Returns _, w') => (Returns tt, w')
           | (Throws e, w') =>
               (Returns tt,
                mkWorld (httpStatus w') (contentType w') (response_headers w')
                        (responded w') (console w') (unhandled w' ++ [e]))
           end.

End UM.

#[global] Instance U_ret : MRet U := @UM.ret.
#[global] Instance U_bind : MBind U := fun A B k m => UM.bind m k.

(** [error.message = prefix + error.message] *)
Definition prefix_message (prefix : string) (e : Error) : Error :=
  mkError (name e) (prefix +:+ message e).

Definition console_error (e : Error) : U unit :=
  UM.modify (fun w => mkWorld (httpStatus w) (contentType w) (response_headers w)
                              (responded w) (console w ++ [e]) (unhandled w)).

(** ** Ghost events and the monad of the dispatcher *)

Inductive Target :=
| ToController (path : string)
| ToDynamicController (key : string)
| ToPage (path : string)
| ToDynamicPage (key : string)
| ToStaticFile (path : string).

Inductive Ghost :=
| GEnterRoute                            (* [handleRoute] entered *)
| GMiddleware (key : string)             (* [middleware.default] called *)
| GNext (key : string) (failed : bool)   (* its continuation called, with / without an error *)
| GTerminal (t : Target).                (* a terminal handler invoked *)

Definition M (A : Type) : Type := World -> Result A * World * list Ghost.

Module MM.

Definition ret {A} (a : A) : M A := fun w => (Returns a, w, []).

Definition bind {A B} (m : M A) (k : A -> M B) : M B :=
  fun w => match m w with
           | (Returns a, w', t) =>
               match k a w' with (r, w'', t') => (r, w'', t ++ t') end
           | (Throws e, w', t) => (Throws e, w', t)
           end.

Definition throw {A} (e : Error) : M A := fun w => (Throws e, w, []).

Definition try_catch {A} (m : M A) (h : Error -> M A) : M A :=
  fun w => match m w with
           | (Returns a, w', t) => (Returns a, w', t)
           | (Throws e, w', t) =>
               match h e w' with (r, w'', t') => (r, w'', t ++ t') end
           end.

Definition lift {A} (m : U A) : M A := fun w => (m w, []).

Definition ghost (g : Ghost) : M unit := fun w => (Returns tt, w, [g]).

End MM.

#[global] Instance M_ret : MRet M := @MM.ret.
#[global] Instance M_bind : MBind M := fun A B k m => MM.bind m k.

(** ** The data model: requests, handler modules, route tables *)

Record Request := mkRequest {
  url : string;
  method : string;
  req_headers : Headers;
  req_body : string      (* the body, read and decoded as text *)
}.

(** A schema is the object literal a module exports. *)
Definition Schema := JsValue.

Record ValidationSchema := mkValidationSchema {
  vs_headers : option Schema;
  vs_params : option Schema;
  vs_querystring : option Schema;
  vs_body : option Schema
}.

Record HandlerOptions := mkOptions {
  methods : option (list string);
  validationSchema : option ValidationSchema
}.

(** A controller module: [options] and the [default] export. *)
Record Controller := mkController {
  c_options : option HandlerOptions;
  c_default : Request -> U unit
}.

Record DynamicController := mkDynamicController {
  dc_url : string;
  dc_controller : Controller
}.

Inductive PageProps :=
| NoProps
| StaticProps (props : list (string * JsValue))
| PropsFunction (f : Request -> U JsValue).

Record PageOptions := mkPageOptions {
  template : option string;
  title : option string
}.

Record Page := mkPage {
  p_default : JsValue;
  p_props : PageProps;
  p_options : option PageOptions
}.

Record DynamicPage := mkDynamicPage {
  dp_url : string;
  dp_page : Page
}.

(** What a middleware does with its continuation, after its own code ran:
    it calls [next(err)] once, or returns without calling it. *)
Inductive Continuation :=
| CallNext (err : option Error)
| NoCall.

(** A middleware module. Its [default] export runs user code and then
    decides about [next]; an exception of that user code is a [Throws]. *)
Record Middleware := mkMiddleware {
  m_options : option HandlerOptions;
  m_default : Request -> U Continuation
}.

(** The fields of the class that request handling reads. [middlewares] is
    a [Map] iterated in insertion order, hence a list of entries. *)
Record Fastro := mkFastro {
  appStatus : string;
  corsEnabled : bool;
  controller : gmap string Controller;
  dynamicController : list DynamicController;
  pages : gmap string Page;
  dynamicPage : list DynamicPage;
  middlewares : list (string * Middleware);
  staticFiles : gmap string JsValue;
  templateFiles : gmap string string
}.

(** JS truthiness. *)
Definition truthy (v : JsValue) : bool :=
  match v with
  | VUndefined | VNull => false
  | VBool b => b
  | VNumber (NumInt z) => negb (z =? 0)
  | VNumber NumNaN => false
  | VNumber (NumInfinity _) => true
  | VBigInt z => negb (z =? 0)
  | VString s => truthy_string s
  | _ => true
  end.

(** [obj[k] = v] and [obj[k]] on own data properties. *)
Fixpoint obj_set (k : string) (v : JsValue) (props : list (string * JsValue))
  : list (string * JsValue) :=
  match props with
  | [] => [(k, v)]
  | (k', v') :: rest =>
      if String.eqb k' k then (k, v) :: rest else (k', v') :: obj_set k v rest
  end.

Definition obj_get (k : string) (props : list (string * JsValue)) : JsValue :=
  match List.find (fun kv => String.eqb (fst kv) k) props with
  | Some kv => snd kv
  | None => VUndefined
  end.

(** [methods.includes(m)] *)
Definition includes_method (m : string) (l : list string) : bool :=
  existsb (String.eqb m) l.

(** [const [x] = list.filter(p)]: the first element that satisfies [p]. *)
Definition first_match {A} (p : A -> bool) (l : list A) : option A :=
  head (filter (fun x => p x = true) l).

(** How [send] turns a payload into a body. *)
Definition send_body (payload : JsValue) : Result (option Body) :=
  match payload with
  | VString s => Returns (Some (BodyText s))
  | VBytes b => Returns (Some (BodyBytes b))
  | VUndefined => Returns (Some (BodyText "undefined"))
  | VArray _ =>
      match JSON_stringify payload with
      | Returns t => Returns (BodyText <$> t)
      | Throws e => Throws e
      end
  | VNumber _ | VBool _ | VBigInt _ | VFunction _ | VSymbol _ =>
      Returns (Some (BodyText (toString payload)))
  | VNull | VObject _ =>
      match JSON_stringify payload with
      | Returns t => Returns (BodyText <$> t)
      | Throws e => Throws e
      end
  end.

#[global] Instance Result_ret : MRet Result := @Returns.
#[global] Instance Result_bind : MBind Result :=
  fun A B k r => match r with Returns a => k a | Throws e => Throws e end.

(** [try { r } catch (error) { error.message = prefix + error.message; throw error }]
    for code that touches no state. *)
Definition prefixed {A} (prefix : string) (r : Result A) : Result A :=
  match r with
  | Returns a => Returns a
  | Throws e => Throws (prefix_message prefix e)
  end.

(** [list.forEach(x => out.push(f x))], stopping at the first exception. *)
Fixpoint forEach_push {A B} (f : A -> Result B) (l : list A) : Result (list B) :=
  match l with
  | [] => Returns []
  | x :: l' => y ← f x; ys ← forEach_push f l'; Returns (y :: ys)
  end.

Section Server.

(** From [utils.ts] and [constant.ts], which the class imports. *)
Variable createError : string -> Error -> Error.
Variable validateObject : JsValue -> option Schema -> Result unit.
Variable NOT_FOUND : string.
Variable CONTENT_TYPE : string.
Variable FASTRO_VERSION : string.

(** Built-ins and the runtime: [decodeURIComponent], [JSON.parse], the
    synchronous outcome of [req.respond], the clock, [getCookies] of the
    standard library, and the page renderer. *)
Variable decodeURIComponent : string -> Result string.
Variable JSON_parse : string -> Result JsValue.
Variable respond_throws : Response -> option Error.
Variable utc_now : string.
Variable getCookies : Headers -> JsValue.
Variable renderComponent : Page -> JsValue -> option string -> Result string.

(** The server instance. *)
Variable this : Fastro.

(** [req.respond(r)] *)
Definition respond (r : Response) : U unit :=
  fun w =>
    (match respond_throws r with None => Returns tt | Some e => Throws e end,
     mkWorld (httpStatus w) (contentType w) (response_headers w)
             (responded w ++ [r]) (console w) (unhandled w)).

(** *** The response sender *)

Definition send (payload : JsValue) (status : option Z) (headers : option Headers)
  : U unit :=
  let status := default 200 status in
  let headers := default [] headers in
  UM.try_catch
    (body ← UM.of_result (send_body payload);
     w ← UM.get;
     let cookie := Hdr.get "set-cookie" (response_headers w) in
     let headers :=
       match cookie with
       | Some c => if truthy_string c then Hdr.set "Set-Cookie" c headers else headers
       | None => headers
       end in
     let headers := Hdr.set "Connection" "keep-alive" headers in
     let headers := Hdr.set "Date" utc_now headers in
     let headers := Hdr.set "x-powered-by" (appStatus this) headers in
     let headers :=
       if corsEnabled this then
         Hdr.set "Access-Control-Allow-Methods" "*"
           (Hdr.set "Access-Control-Allow-Headers" "*"
              (Hdr.set "Access-Control-Allow-Origin" "*" headers))
       else headers in
     respond (mkResponse (Some headers) (Some status) body))
    (fun error => console_error (prefix_message "SEND_ERROR: " error)).

(** *** The request context ([transformRequest]) *)

(** [request.type(contentType)] *)
Definition request_type (ct : string) : U unit :=
  UM.modify (fun w => mkWorld (httpStatus w) (Some ct) (response_headers w)
                              (responded w) (console w) (unhandled w)).

(** [request.status(status)] *)
Definition request_status (n : Z) : U unit :=
  UM.modify (fun w => mkWorld (Some n) (contentType w) (response_headers w)
                              (responded w) (console w) (unhandled w)).

(** [request.send(payload, status, headers)] *)
Definition request_send (payload : JsValue) (status : option Z)
           (headers : option Headers) : U unit :=
  w ← UM.get;
  let status :=
    match httpStatus w with
    | Some n => if truthy_status n then n else 200
    | None => 200
    end in
  let headers :=
    match contentType w with
    | Some ct => if truthy_string ct then Some (Hdr.set CONTENT_TYPE ct []) else headers
    | None => headers
    end in
  send payload (Some status) headers.

(** [request.json(payload)] *)
Definition request_json (payload : JsValue) : U unit :=
  w ← UM.get;
  send payload (httpStatus w) (Some (Hdr.set CONTENT_TYPE "application/json" [])).

(** *** The url-encoded payload decoder *)

(** The callback of [body.forEach] in [handleFormUrlEncoded]. *)
Definition decode_segment (i : string) : Result JsValue :=
  if Str.includes "=" i then
    let parts := Str.split "=" i in
    let key := nth 0 parts "undefined" in
    let value := nth 1 parts "undefined" in
    decodedV ← decodeURIComponent value;
    decodedK ← decodeURIComponent key;
    Returns (VObject [(decodedK, VString decodedV)])
  else JSON_parse i.

Definition handleFormUrlEncoded (req : Request) (contentType : string)
  : Result JsValue :=
  prefixed "HANDLE_FORM_URL_ENCODED_ERROR: "
    (let bodyString := req_body req in
     let body := Str.split "&" (Str.remove_first contentType bodyString) in
     data ← forEach_push decode_segment body;
     match data with
     | _ :: _ :: _ => Returns (VArray data)
     | [d] => Returns d
     | [] => Returns VUndefined
     end).

(** *** Params and query *)

Definition validateParams (params : JsValue) (url : string) : Result unit :=
  prefixed "VALIDATE_PARAMS_ERROR: "
    (match first_match (fun val => String.eqb (dc_url val) url) (dynamicController this) with
     | None => Returns tt
     | Some handler =>
         match c_options (dc_controller handler) with
         | None => Throws (new_TypeError "Cannot read property 'validationSchema' of undefined")
         | Some o =>
             match validationSchema o with
             | None => Returns tt
             | Some vs =>
                 match vs_params vs with
                 | None => Returns tt
                 | Some schema => validateObject params (Some schema)
                 end
             end
         end
     end).

Definition getParams (incoming : string) : Result JsValue :=
  prefixed "GET_PARAMS_ERROR: "
    (let incomingSplit := Str.split "/" (Str.drop 1 incoming) in
     let params := VArray (map VString incomingSplit) in
     _ ← validateParams params incoming;
     Returns params).

Definition validateQuery (query : JsValue) (url : string) : Result unit :=
  prefixed "VALIDATE_QUERY_ERROR: "
    (match first_match (fun val => Str.includes (dc_url val) url) (dynamicController this) with
     | None => Returns tt
     | Some handler =>
         match c_options (dc_controller handler) with
         | None => Throws (new_TypeError "Cannot read property 'validationSchema' of undefined")
         | Some o =>
             match validationSchema o with
             | None => Returns tt
             | Some vs =>
                 match vs_params vs with
                 | None => Returns tt
                 | Some _ => validateObject query (vs_querystring vs)
                 end
             end
         end
     end).

(** The callback of [queryPair.forEach] in [getQuery]. *)
Definition add_pair (obj : list (string * JsValue)) (q : string)
  : list (string * JsValue) :=
  let parts := Str.split "=" q in
  let key := nth 0 parts "undefined" in
  let value := match parts !! 1%nat with Some v => VString v | None => VUndefined end in
  obj_set key value obj.

Definition getQuery (key : option string) (url : string) : Result JsValue :=
  prefixed "GET_QUERY_ERROR: "
    (if negb (truthy_string url) then Throws (new_Error "Url empty")
     else
       match Str.split "?" url !! 1%nat with
       | None => Throws (new_Error "Query not found")
       | Some query =>
           if negb (truthy_string query) then Throws (new_Error "Query not found")
           else
             let queryPair := Str.split "&" query in
             let obj := fold_left add_pair queryPair [] in
             _ ← validateQuery (VObject obj) url;
             match key with
             | Some k =>
                 if truthy_string k then Returns (VObject (obj_set k (obj_get k obj) []))
                 else Returns (VObject obj)
             | None => Returns (VObject obj)
             end
       end).

(** *** Header validation *)

(** The keys [for (const key in v)] visits. *)
Definition for_in_keys (v : JsValue) : list string :=
  match v with
  | VObject ps => map fst ps
  | VArray l => imap (fun i _ => pretty i) l
  | _ => []
  end.

Definition validateHeaders (headers : Headers) (schema : option Schema) : Result unit :=
  prefixed "VALIDATE_HEADERS_ERROR: "
    (match schema with
     | None | Some VUndefined | Some VNull =>
         Throws (new_TypeError "Cannot destructure property 'properties' of 'schema'")
     | Some s =>
         let properties :=
           match s with VObject ps => obj_get "properties" ps | _ => VUndefined end in
         let target :=
           fold_left
             (fun t key =>
                obj_set key (match Hdr.get key headers with
                             | Some v => VString v
                             | None => VNull
                             end) t)
             (for_in_keys properties) [] in
         validateObject (VObject target) (Some s)
     end).

(** *** The dispatcher *)

(** [try { m } catch (error) { throw createError(label, error) }] *)
Definition guarded {A} (label : string) (m : M A) : M A :=
  MM.try_catch m (fun error => MM.throw (createError label error)).

Definition static_content_type (url : string) (header : Headers) : Headers :=
  if Str.includes ".svg" url then Hdr.set CONTENT_TYPE "image/svg+xml" header
  else if Str.includes ".png" url then Hdr.set CONTENT_TYPE "image/png" header
  else if Str.includes ".jpeg" url then Hdr.set CONTENT_TYPE "image/jpeg" header
  else if Str.includes ".css" url then Hdr.set CONTENT_TYPE "text/css" header
  else if Str.includes ".html" url then Hdr.set CONTENT_TYPE "text/html" header
  else if Str.includes ".json" url then Hdr.set CONTENT_TYPE "application/json" header
  else if Str.includes "favicon.ico" url then Hdr.set CONTENT_TYPE "image/ico" header
  else header.

(** [const staticFile = this.staticFiles.get(url); if (!staticFile) ...]:
    the stored content when there is one and it is truthy. *)
Definition static_lookup (url : string) : option JsValue :=
  match staticFiles this !! url with
  | Some staticFile => if truthy staticFile then Some staticFile else None
  | None => None
  end.

Definition handleStaticFile (request : Request) : M unit :=
  guarded "HANDLE_STATIC_FILE_ERROR"
    (let url := url request in
     match static_lookup url with
     | None => MM.throw (new_Error NOT_FOUND)
     | Some staticFile =>
         let header := static_content_type url [] in
         MM.ghost (GTerminal (ToStaticFile url));;
         MM.lift (request_send staticFile (Some 200) (Some header))
     end).

(** [sendHTML] is [async] and nobody awaits it. *)
Definition sendHTML (page : Page) (request : Request) : U unit :=
  UM.detached
    (UM.try_catch
       (props ← match p_props page with
                | PropsFunction f => f request
                | StaticProps ps =>
                    params ← UM.of_result (getParams (url request));
                    mret (VObject
                            (obj_set "cookie" (getCookies (req_headers request))
                               (obj_set "params" params
                                  (obj_set "url" (VString (url request)) ps))))
                | NoProps => mret VUndefined
                end;
        html ← UM.of_result
                 (match p_options page with
                  | Some o =>
                      match template o with
                      | Some t =>
                          if truthy_string t
                          then renderComponent page props (templateFiles this !! t)
                          else renderComponent page props None
                      | None => renderComponent page props None
                      end
                  | None => renderComponent page props None
                  end);
        request_type "text/html";;
        request_send (VString html) None None)
       (fun error => UM.throw (createError "SEND_HTML_ERROR" error))).

Definition handleDynamicPage (request : Request) : M unit :=
  match first_match (fun page => Str.includes (dp_url page) (url request))
                    (dynamicPage this) with
  | None => handleStaticFile request
  | Some page =>
      MM.ghost (GTerminal (ToDynamicPage (dp_url page)));;
      MM.lift (sendHTML (dp_page page) request)
  end.

Definition handlePage (request : Request) : M unit :=
  match pages this !! url request with
  | None => handleDynamicPage request
  | Some page =>
      MM.ghost (GTerminal (ToPage (url request)));;
      MM.lift (sendHTML page request)
  end.

(** The method gate both controller paths and the middleware runner apply:
    [options && options.methods && !options.methods.includes(method)]. *)
Definition method_rejected (options : option HandlerOptions) (request : Request) : bool :=
  match options with
  | Some o =>
      match methods o with
      | Some ms => negb (includes_method (method request) ms)
      | None => false
      end
  | None => false
  end.

(** [options && options.validationSchema && options.validationSchema.headers]
    guards the header validation of a controller. *)
Definition controller_header_check (options : option HandlerOptions) (request : Request)
  : Result unit :=
  match options with
  | Some o =>
      match validationSchema o with
      | Some vs =>
          match vs_headers vs with
          | Some schema => validateHeaders (req_headers request) (Some schema)
          | None => Returns tt
          end
      | None => Returns tt
      end
  | None => Returns tt
  end.

Definition handleDynamicParams (request : Request) : M unit :=
  guarded "HANDLE_DYNAMIC_PARAMS_ERROR"
    (match first_match (fun controller => Str.includes (dc_url controller) (url request))
                       (dynamicController this) with
     | None => handlePage request
     | Some handlerFile =>
         let options := c_options (dc_controller handlerFile) in
         if method_rejected options request then MM.throw (new_Error NOT_FOUND)
         else
           MM.lift (UM.of_result (controller_header_check options request));;
           MM.ghost (GTerminal (ToDynamicController (dc_url handlerFile)));;
           MM.lift (c_default (dc_controller handlerFile) request)
     end).

Definition handleRoute (request : Request) : M unit :=
  MM.ghost GEnterRoute;;
  guarded "HANDLE_ROUTE_ERROR"
    (match controller this !! url request with
     | None => handleDynamicParams request
     | Some controller =>
         let options := c_options controller in
         if method_rejected options request then MM.throw (new_Error NOT_FOUND)
         else
           MM.lift (UM.of_result (controller_header_check options request));;
           MM.ghost (GTerminal (ToController (url request)));;
           MM.lift (c_default controller request)
     end).

(** *** The middleware runner *)

(** The continuation handed to the middleware stored under [key]. *)
Definition next (key : string) (request : Request) (err : option Error) : M unit :=
  match err with
  | Some e =>
      MM.ghost (GNext key true);;
      MM.throw (if truthy_string (message e) then e
                else mkError (name e) ("Middleware error: " +:+ key))
  | None =>
      MM.ghost (GNext key false);;
      handleRoute request
  end.

(** The header check of a middleware: any [validationSchema] triggers it,
    with whatever its [headers] field holds. *)
Definition middleware_header_check (options : option HandlerOptions) (request : Request)
  : Result unit :=
  match options with
  | Some o =>
      match validationSchema o with
      | Some vs => validateHeaders (req_headers request) (vs_headers vs)
      | None => Returns tt
      end
  | None => Returns tt
  end.

(** The callback of [this.middlewares.forEach]. *)
Definition run_middleware (request : Request) (entry : string * Middleware) : M unit :=
  let '(key, middleware) := entry in
  if method_rejected (m_options middleware) request then MM.throw (new_Error NOT_FOUND)
  else
    MM.lift (UM.of_result (middleware_header_check (m_options middleware) request));;
    MM.ghost (GMiddleware key);;
    c ← MM.lift (m_default middleware request);
    match c with
    | CallNext err => next key request err
    | NoCall => mret tt
    end.

Fixpoint forEach_middleware (request : Request) (l : list (string * Middleware)) : M unit :=
  match l with
  | [] => mret tt
  | entry :: l' => run_middleware request entry;; forEach_middleware request l'
  end.

Definition handleMiddleware (request : Request) : M unit :=
  guarded "HANDLE_MIDDLEWARE_ERROR" (forEach_middleware request (middlewares this)).

(** *** Root, the error boundary and the entry point *)

Definition handleRoot (request : Request) : U unit :=
  match staticFiles this !! "/index.html" with
  | Some index =>
      if truthy index then request_send index None None
      else request_send (VString ("Fastro v" +:+ FASTRO_VERSION)) None None
  | None => request_send (VString ("Fastro v" +:+ FASTRO_VERSION)) None None
  end.

(** The status [handleRequestError] picks. *)
Definition error_status (error : Error) : Z :=
  let status := 500 in
  let status := if Str.includes NOT_FOUND (message error) then 404 else status in
  let status := if Str.includes "VALIDATE" (message error) then 400 else status in
  status.

(** [console.error] receives the wrapped error; the timestamp and url it
    prints before it are not recorded. *)
Definition handleRequestError (error : Error) (serverRequest : Request) : U unit :=
  let err := createError "HANDLE_REQUEST_ERROR" error in
  let status := error_status error in
  message ← UM.of_result
              (JSON_stringify (VObject [("error", VBool true);
                                        ("message", VString (message error))]));
  let headers := Hdr.set CONTENT_TYPE "application/json" [] in
  respond (mkResponse (Some headers) (Some status) (BodyText <$> message));;
  console_error err.

(** [transformRequest] gives the request a fresh response state. *)
Definition transformRequest : U unit :=
  UM.modify (fun w => mkWorld None None [] (responded w) (console w) (unhandled w)).

Definition handleRequest (serverRequest : Request) : M unit :=
  MM.try_catch
    (MM.lift transformRequest;;
     if String.eqb (url serverRequest) "/" then MM.lift (handleRoot serverRequest)
     else if negb (Nat.eqb (length (middlewares this)) 0) then handleMiddleware serverRequest
     else handleRoute serverRequest)
    (fun error => MM.lift (handleRequestError error serverRequest)).

End Server.

(** ** Stand-ins for running the code on concrete inputs

    The general theorems below quantify over the imported helpers and the
    built-ins. Concrete runs need concrete ones; these are used by the
    closed lemmas only. *)

Module Ref.

(** Modelled from the spec: the constant [NOT_FOUND] of [constant.ts],
    which the spec writes [NOT_FOUND]. *)
Definition NOT_FOUND : string := "NOT_FOUND".

(** Modelled from the spec: the constant [CONTENT_TYPE] of [constant.ts],
    the name of the header the spec calls [Content-Type]. *)
Definition CONTENT_TYPE : string := "Content-Type".

Definition FASTRO_VERSION : string := "0.0.0".

(** Modelled from the spec: [createError] of [utils.ts]. The spec has a
    lookup failure raised as [NOT_FOUND] reach the error boundary as
    [NOT_FOUND] through the wrappers, so the wrapper keeps the message; the
    label is taken as the name of the new error. *)
Definition createError (label : string) (e : Error) : Error :=
  mkError label (message e).

(** A validator that rejects every object: where a run succeeds with it,
    the validator was not consulted. *)
Definition validateObject (_ : JsValue) (_ : option Schema) : Result unit :=
  Throws (new_Error "VALIDATION_ERROR").

Definition hex_value (c : ascii) : option N :=
  let n := N_of_ascii c in
  if ((48 <=? n) && (n <=? 57))%N then Some (n - 48)%N
  else if ((65 <=? n) && (n <=? 70))%N then Some (n - 55)%N
  else if ((97 <=? n) && (n <=? 102))%N then Some (n - 87)%N
  else None.

Definition percent : ascii := ascii_of_N 37.

(** Percent-decoding. It agrees with [decodeURIComponent] on inputs whose
    escapes encode well-formed UTF-8 (it does not reject the others). *)
Fixpoint decodeURIComponent (s : string) : Result string :=
  match s with
  | EmptyString => Returns EmptyString
  | String c s' =>
      if Ascii.eqb c percent then
        match s' with
        | String h (String l rest) =>
            match hex_value h, hex_value l with
            | Some a, Some b =>
                r ← decodeURIComponent rest;
                Returns (String (ascii_of_N (16 * a + b)) r)
            | _, _ => Throws (mkError "URIError" "URI malformed")
            end
        | _ => Throws (mkError "URIError" "URI malformed")
        end
      else r ← decodeURIComponent s'; Returns (String c r)
  end.

(** [JSON.parse] on the three literals; every other text is refused. The
    concrete inputs below never hand it anything else. *)
Definition JSON_parse (s : string) : Result JsValue :=
  if String.eqb s "null" then Returns VNull
  else if String.eqb s "true" then Returns (VBool true)
  else if String.eqb s "false" then Returns (VBool false)
  else Throws (mkError "SyntaxError" "Unexpected token in JSON").

(** A transport that accepts every response. *)
Definition respond_throws (_ : Response) : option Error := None.

Definition utc_now : string := "Mon, 02 Nov 2020 10:00:00 GMT".

Definition getCookies (_ : Headers) : JsValue := VObject [].

Definition renderComponent (_ : Page) (_ : JsValue) (_ : option string)
  : Result string := Returns "<html></html>".

Definition send := send respond_throws utc_now.
Definition request_send := request_send CONTENT_TYPE respond_throws utc_now.
Definition handleFormUrlEncoded := handleFormUrlEncoded decodeURIComponent JSON_parse.
Definition getQuery := getQuery validateObject.
Definition handleRequestError :=
  handleRequestError createError NOT_FOUND CONTENT_TYPE respond_throws.
Definition handleMiddleware :=
  handleMiddleware createError validateObject NOT_FOUND CONTENT_TYPE respond_throws
                   utc_now getCookies renderComponent.
Definition handleRequest :=
  handleRequest createError validateObject NOT_FOUND CONTENT_TYPE FASTRO_VERSION
                respond_throws utc_now getCookies renderComponent.

Definition GET (path : string) : Request := mkRequest path "GET" [] "".

(** A server with no routes, no middleware and no files. *)
Definition empty_server : Fastro :=
  mkFastro "Fastro/0.0.0 (UNREGISTERED)" false ∅ [] ∅ [] [] ∅ ∅.

End Ref.

(** ** Specification-side definitions

    These follow the wording of the properties, not the code; the theorems
    relate them to the functions above. *)

Section Specification.

Variable createError : string -> Error -> Error.
Variable validateObject : JsValue -> option Schema -> Result unit.
Variable NOT_FOUND : string.
Variable CONTENT_TYPE : string.
Variable respond_throws : Response -> option Error.
Variable utc_now : string.
Variable getCookies : Headers -> JsValue.
Variable renderComponent : Page -> JsValue -> option string -> Result string.
Variable this : Fastro.

(** The outcome of resolving a path against the route tables. *)
Inductive Resolution :=
| RController (c : Controller)
| RDynamicController (dc : DynamicController)
| RPage (p : Page)
| RDynamicPage (dp : DynamicPage)
| RStaticFile (content : JsValue)
| RNotFound.

(** The order of the lookups: exact controller, parametrized controller
    (first registered entry whose key occurs in the path), exact page,
    parametrized page, static file. *)
Definition resolve (path : string) : Resolution :=
  match controller this !! path with
  | Some c => RController c
  | None =>
      match List.find (fun dc => Str.includes (dc_url dc) path) (dynamicController this) with
      | Some dc => RDynamicController dc
      | None =>
          match pages this !! path with
          | Some p => RPage p
          | None =>
              match List.find (fun dp => Str.includes (dp_url dp) path) (dynamicPage this) with
              | Some dp => RDynamicPage dp
              | None =>
                  match static_lookup this path with
                  | Some content => RStaticFile content
                  | None => RNotFound
                  end
              end
          end
      end
  end.

(** What a resolved controller goes through: the method gate, the header
    schema, then the call of its handler. *)
Definition run_controller (t : Target) (c : Controller) (request : Request) : M unit :=
  if method_rejected (c_options c) request then MM.throw (new_Error NOT_FOUND)
  else
    MM.lift (UM.of_result (controller_header_check validateObject (c_options c) request));;
    MM.ghost (GTerminal t);;
    MM.lift (c_default c request).

Definition run_page (t : Target) (p : Page) (request : Request) : M unit :=
  MM.ghost (GTerminal t);;
  MM.lift (sendHTML createError validateObject CONTENT_TYPE respond_throws utc_now
                    getCookies renderComponent this p request).

Definition run_static (content : JsValue) (request : Request) : M unit :=
  MM.ghost (GTerminal (ToStaticFile (url request)));;
  MM.lift (request_send CONTENT_TYPE respond_throws utc_now this content (Some 200)
                        (Some (static_content_type CONTENT_TYPE (url request) []))).

(** The one terminal step a resolution stands for, inside the error
    wrappers of the functions it was reached through. *)
Definition terminal (r : Resolution) (request : Request) : M unit :=
  let route := @guarded createError unit "HANDLE_ROUTE_ERROR" in
  let dynamic := @guarded createError unit "HANDLE_DYNAMIC_PARAMS_ERROR" in
  let static := @guarded createError unit "HANDLE_STATIC_FILE_ERROR" in
  match r with
  | RController c => route (run_controller (ToController (url request)) c request)
  | RDynamicController dc =>
      route (dynamic (run_controller (ToDynamicController (dc_url dc))
                                         (dc_controller dc) request))
  | RPage p => route (dynamic (run_page (ToPage (url request)) p request))
  | RDynamicPage dp =>
      route (dynamic (run_page (ToDynamicPage (dp_url dp)) (dp_page dp) request))
  | RStaticFile content => route (dynamic (static (run_static content request)))
  | RNotFound =>
      MM.throw (createError "HANDLE_ROUTE_ERROR"
                  (createError "HANDLE_DYNAMIC_PARAMS_ERROR"
                     (createError "HANDLE_STATIC_FILE_ERROR" (new_Error NOT_FOUND))))
  end.

End Specification.

(** The part of [s] after the first [c], if [c] occurs. *)
Fixpoint after_first (c : ascii) (s : string) : option string :=
  match s with
  | EmptyString => None
  | String a s' => if Ascii.eqb a c then Some s' else after_first c s'
  end.

(** The part of [s] before the first [c] (all of [s] if [c] does not occur). *)
Fixpoint up_to (c : ascii) (s : string) : string :=
  match s with
  | EmptyString => EmptyString
  | String a s' => if Ascii.eqb a c then EmptyString else String a (up_to c s')
  end.

(** The query of a URL: what stands between the first question mark and
    the next one (or the end). *)
Definition query_part (url : string) : option string :=
  up_to "?" <$> after_first "?" url.

(** [decoded_as dec parse seg d]: [d] is what one segment decodes to. In a
    segment with an equals sign the key is the text before the first one
    and the value the text between it and the next one (or the end). *)
Definition decoded_as (dec : string -> Result string) (parse : string -> Result JsValue)
           (seg : string) (d : JsValue) : Prop :=
  if Str.includes "=" seg then
    exists k v,
      dec (up_to "=" seg) = Returns k /\
      (up_to "=" <$> after_first "=" seg) = Some v /\
      exists v', dec v = Returns v' /\ d = VObject [(k, VString v')]
  else parse seg = Returns d.

(** The events that concern routing under middleware. *)
Definition routing_event (g : Ghost) : bool :=
  match g with
  | GEnterRoute | GNext _ _ => true
  | _ => false
  end.

Definition is_enter (g : Ghost) : bool :=
  match g with GEnterRoute => true | _ => false end.

Definition is_terminal (g : Ghost) : bool :=
  match g with GTerminal _ => true | _ => false end.

(** What [next] throws for an error [e] given by the middleware [key]. *)
Definition annotated (key : string) (e : Error) : Error :=
  match message e with
  | EmptyString => mkError (name e) ("Middleware error: " +:+ key)
  | _ => e
  end.

(** The JSON envelope of the error boundary for a message. *)
Definition error_envelope (msg : string) : string :=
  "{" +:+ JSON.quote "error" +:+ ":true," +:+ JSON.quote "message" +:+ ":"
      +:+ JSON.quote msg +:+ "}".

(** One [key=value] pair of a query: the key is what stands before the
    first equals sign, the value what stands between it and the next one
    ([undefined] when there is no equals sign). *)
Definition pair_of (seg : string) : string * JsValue :=
  (up_to "=" seg,
   match after_first "=" seg with
   | Some r => VString (up_to "=" r)
   | None => VUndefined
   end).

(** The mapping a query denotes: its segments between ampersands, read as
    pairs, a later pair overwriting an earlier one with the same key. *)
Definition pairs_of (q : string) : list (string * JsValue) :=
  fold_left (fun obj seg => obj_set (fst (pair_of seg)) (snd (pair_of seg)) obj)
            (Str.split "&" q) [].

(** ** Concrete servers for the closed lemmas *)

Module Sample.

(** A schema that requires a string field [id]. *)
Definition id_schema : Schema :=
VObject [("type", VString "object");
         ("required", VArray [VString "id"]);
         ("properties", VObject [("id", VObject [("type", VString "string")])])].

(** A handler that answers [ok]. *)
Definition ok_handler (_ : Request) : U unit :=
Ref.request_send Ref.empty_server (VString "ok") None None.

(** A parametrized controller that declares a [querystring] schema and no
  [params] schema. *)
Definition hello_controller : Controller :=
mkController
  (Some (mkOptions (Some ["GET"])
                   (Some (mkValidationSchema None None (Some id_schema) None))))
  ok_handler.

Definition hello_server : Fastro :=
mkFastro "Fastro/0.0.0 (UNREGISTERED)" false ∅
         [mkDynamicController "/hello" hello_controller] ∅ [] [] ∅ ∅.

(** Middleware that call [next()] and [next(err)]. *)
Definition pass : Middleware := mkMiddleware None (fun _ => mret (CallNext None)).

Definition fail_with (e : Error) : Middleware :=
mkMiddleware None (fun _ => mret (CallNext (Some e))).

Definition x_controller : Controller := mkController None ok_handler.

(** One exact route [/x] behind two middleware that both continue. *)
Definition two_pass_server : Fastro :=
mkFastro "Fastro/0.0.0 (UNREGISTERED)" false {["/x" := x_controller]} [] ∅ []
         [("a.ts", pass); ("b.ts", pass)] ∅ ∅.

(** Two middleware that both continue, and no route at all. *)
Definition two_pass_unrouted : Fastro :=
  mkFastro "Fastro/0.0.0 (UNREGISTERED)" false ∅ [] ∅ []
           [("a.ts", pass); ("b.ts", pass)] ∅ ∅.

(** The same route behind a middleware that continues and one that fails. *)
Definition pass_fail_server : Fastro :=
mkFastro "Fastro/0.0.0 (UNREGISTERED)" false {["/x" := x_controller]} [] ∅ []
         [("a.ts", pass); ("b.ts", fail_with (new_Error ""))] ∅ ∅.

(** The same route behind a single failing middleware. *)
Definition fail_server : Fastro :=
mkFastro "Fastro/0.0.0 (UNREGISTERED)" false {["/x" := x_controller]} [] ∅ []
         [("b.ts", fail_with (new_Error ""))] ∅ ∅.

(** A server whose only entry is an empty style sheet. *)
Definition empty_file_server : Fastro :=
  mkFastro "Fastro/0.0.0 (UNREGISTERED)" false ∅ [] ∅ [] []
           {["/e.css" := VString ""]} ∅.

(** A server whose only entry is a style sheet. *)
Definition file_server : Fastro :=
mkFastro "Fastro/0.0.0 (UNREGISTERED)" false ∅ [] ∅ [] []
         {["/a.css" := VString "p{}"]} ∅.

End Sample.

(** [only P m]: whatever the state, [m] emits events that satisfy [P]. *)
Definition only {A} (P : Ghost -> bool) (m : M A) : Prop :=
  forall w, forallb P (snd (m w)) = true.

(** ** More of the request context, and the loader *)

(** What [nativeImport] gets from the module it has loaded: a controller or
    a page, told apart by the file name. *)
Inductive ImportedFile :=
| ImportedController (c : Controller)
| ImportedPage (p : Page).

Section RequestContext.

Variable validateObject : JsValue -> option Schema -> Result unit.
Variable CONTENT_TYPE : string.
Variable decodeURIComponent : string -> Result string.
Variable JSON_parse : string -> Result JsValue.
Variable respond_throws : Response -> option Error.
Variable utc_now : string.

(** [String.prototype.trim], [replaceAll] of [utils.ts], and the method
    [handleMultipart], which rests on the multipart reader of the standard
    library. *)
Variable trim : string -> string.
Variable replaceAll : string -> string -> JsValue -> Result string.
Variable handleMultipart : Request -> string -> Result JsValue.

Variable this : Fastro.

(** The callback of [cookies.map] in [getCookiesByName]: the pair of the
    trimmed name and the value, which is [undefined] without an equals
    sign. *)
Definition cookie_pair (v : string) : string * JsValue :=
  let parts := Str.split "=" v in
  let n := nth 0 parts "undefined" in
  let value := match parts !! 1%nat with Some x => VString x | None => VUndefined end in
  (trim n, value).

Definition getCookiesByName (name : string) (request : Request) : JsValue :=
  match Hdr.get "cookie" (req_headers request) with
  | None => VString ""
  | Some header =>
      let cookies := Str.split ";" header in
      let results :=
        List.filter (fun c => String.eqb (fst c) name) (map cookie_pair cookies) in
      match results with
      | [] => VString ""
      | c :: _ => snd c
      end
  end.

Definition validateJsonPayload (payload : JsValue) (url : string) : Result unit :=
  prefixed "VALIDATE_JSON_PAYLOAD_ERROR: "
    (match controller this !! url with
     | None => Returns tt
     | Some controller =>
         match c_options controller with
         | None =>
             Throws (new_TypeError "Cannot read property 'validationSchema' of undefined")
         | Some o =>
             match validationSchema o with
             | None => Returns tt
             | Some vs =>
                 match vs_body vs with
                 | None => Returns tt
                 | Some schema => validateObject payload (Some schema)
                 end
             end
         end
     end).

(** [getPayload]. The method is [async]: the promises of [handleMultipart]
    and [handleFormUrlEncoded] are returned without being awaited, so their
    rejections pass the [catch] untouched; only what is thrown in the last
    two branches gets the prefix. *)
Definition getPayload (requestServer : Request) : Result JsValue :=
  let json_or_text (contentType : option string) : Result JsValue :=
    prefixed "GET_PAYLOAD_ERROR: "
      (match contentType with
       | Some ct =>
           if Str.includes "application/json" ct then
             payload ← JSON_parse (req_body requestServer);
             _ ← validateJsonPayload payload (url requestServer);
             Returns payload
           else Returns (VString (req_body requestServer))
       | None => Returns (VString (req_body requestServer))
       end) in
  let contentType := Hdr.get CONTENT_TYPE (req_headers requestServer) in
  match contentType with
  | Some ct =>
      if Str.includes "multipart/form-data" ct then handleMultipart requestServer ct
      else if Str.includes "application/x-www-form-urlencoded" ct then
        handleFormUrlEncoded decodeURIComponent JSON_parse requestServer ct
      else json_or_text contentType
  | None => json_or_text contentType
  end.

(** The loop of [view]: one [replaceAll] per key of [options]. *)
Fixpoint view_replace (html : string) (keys : list string)
         (options : list (string * JsValue)) : Result string :=
  match keys with
  | [] => Returns html
  | key :: keys' =>
      html' ← replaceAll html ("{{" +:+ key +:+ "}}") (obj_get key options);
      view_replace html' keys' options
  end.

(** [request.view(template, options)] *)
Definition view (template : string) (options : option (list (string * JsValue)))
  : U unit :=
  UM.try_catch
    (html ← UM.of_result
              (match templateFiles this !! template with
               | Some html =>
                   if truthy_string html then
                     match options with
                     | Some props =>
                         h ← view_replace html (map fst props) props; Returns (Some h)
                     | None => Returns (Some html)
                     end
                   else Returns (Some html)
               | None => Returns None
               end);
     request_send CONTENT_TYPE respond_throws utc_now this
                  (match html with Some h => VString h | None => VUndefined end)
                  None None)
    (fun error => UM.throw (prefix_message "VIEW_ERROR" error)).

(** The callback of [import(filePath).then] in [nativeImport]. [prefix] and
    [params] are the fields of that name of the module's [options] ([None]
    and [false] when there are no options or the field is falsy). *)
Definition nativeImport (fileKey : string) (prefix : option string) (params : bool)
           (importedFile : ImportedFile) : Fastro :=
  let fileKey :=
    match prefix with
    | Some p => if truthy_string p then "/" +:+ p +:+ fileKey else fileKey
    | None => fileKey
    end in
  if params then
    match importedFile with
    | ImportedPage p =>
        mkFastro (appStatus this) (corsEnabled this) (controller this)
                 (dynamicController this) (pages this)
                 (dynamicPage this ++ [mkDynamicPage fileKey p])
                 (middlewares this) (staticFiles this) (templateFiles this)
    | ImportedController c =>
        mkFastro (appStatus this) (corsEnabled this) (controller this)
                 (dynamicController this ++ [mkDynamicController fileKey c]) (pages this)
                 (dynamicPage this)
                 (middlewares this) (staticFiles this) (templateFiles this)
    end
  else
    match importedFile with
    | ImportedPage p =>
        mkFastro (appStatus this) (corsEnabled this) (controller this)
                 (dynamicController this) (<[fileKey := p]> (pages this))
                 (dynamicPage this)
                 (middlewares this) (staticFiles this) (templateFiles this)
    | ImportedController c =>
        mkFastro (appStatus this) (corsEnabled this) (<[fileKey := c]> (controller this))
                 (dynamicController this) (pages this)
                 (dynamicPage this)
                 (middlewares this) (staticFiles this) (templateFiles this)
    end.

(** The handler of [services/hello/v1/querybyname.controller.ts]: an
    [async] function, so what it throws is a rejection nobody handles. *)
Definition querybyname_handler (request : Request) : U unit :=
  UM.detached
    (query ← UM.of_result (getQuery validateObject this (Some "name") (url request));
     request_send CONTENT_TYPE respond_throws utc_now this query None None).

End RequestContext.

(** The response of the error boundary for an error. *)
Definition error_response (NOT_FOUND CONTENT_TYPE : string) (error : Error) : Response :=
  mkResponse (Some [(Str.lower CONTENT_TYPE, "application/json")])
             (Some (error_status NOT_FOUND error))
             (Some (BodyText (error_envelope (message error)))).

(** The state in which the dispatch of a request starts: the request's own
    fields are new, what was written before stays written. *)
Definition started (w : World) : World :=
  mkWorld None None [] (responded w) (console w) (unhandled w).

(** More stand-ins and servers for the closed lemmas. *)
Module Ref2.

Definition is_space (c : ascii) : bool :=
  let n := N_of_ascii c in
  ((9 <=? n) && (n <=? 13))%N || (n =? 32)%N.

Fixpoint trim_left (s : string) : string :=
  match s with
  | EmptyString => EmptyString
  | String c s' => if is_space c then trim_left s' else s
  end.

Fixpoint trim_right (s : string) : string :=
  match s with
  | EmptyString => EmptyString
  | String c s' =>
      match trim_right s' with
      | EmptyString => if is_space c then EmptyString else String c EmptyString
      | t => String c t
      end
  end.

(** [trim] on the ASCII white space; it agrees with the built-in on ASCII
    text. *)
Definition trim (s : string) : string := trim_right (trim_left s).

Definition getCookiesByName := getCookiesByName trim.

(** A multipart reader that refuses everything: where a run succeeds with
    it, it was not reached. *)
Definition handleMultipart (_ : Request) (_ : string) : Result JsValue :=
  Throws (new_Error "MULTIPART").

Definition getPayload :=
  getPayload Ref.validateObject Ref.CONTENT_TYPE Ref.decodeURIComponent Ref.JSON_parse
             handleMultipart.

Definition querybyname_handler :=
  querybyname_handler Ref.validateObject Ref.CONTENT_TYPE Ref.respond_throws Ref.utc_now.

Definition json_request (path body : string) : Request :=
  mkRequest path "POST" [("content-type", "application/json")] body.

(** An exact controller that declares a [body] schema. *)
Definition body_controller : Controller :=
  mkController
    (Some (mkOptions None (Some (mkValidationSchema None None None (Some Sample.id_schema)))))
    Sample.ok_handler.

Definition body_server : Fastro :=
  mkFastro "Fastro/0.0.0 (UNREGISTERED)" false {["/j" := body_controller]} [] ∅ [] [] ∅ ∅.

(** A controller for [GET] only, and one that declares a header schema. *)
Definition get_only_controller : Controller :=
  mkController (Some (mkOptions (Some ["GET"]) None)) Sample.ok_handler.

Definition get_only_server : Fastro :=
  mkFastro "Fastro/0.0.0 (UNREGISTERED)" false {["/x" := get_only_controller]}
           [mkDynamicController "/x" Sample.x_controller] ∅ [] [] ∅ ∅.

Definition header_controller : Controller :=
  mkController
    (Some (mkOptions None (Some (mkValidationSchema (Some Sample.id_schema) None None None))))
    Sample.ok_handler.

Definition header_server : Fastro :=
  mkFastro "Fastro/0.0.0 (UNREGISTERED)" false {["/x" := header_controller]} [] ∅ [] [] ∅ ∅.

(** Middleware: one for [POST] only, one with a validation schema that has
    no [headers] part, one that never calls [next]. *)
Definition post_only : Middleware :=
  mkMiddleware (Some (mkOptions (Some ["POST"]) None)) (fun _ => mret (CallNext None)).

Definition post_only_server : Fastro :=
  mkFastro "Fastro/0.0.0 (UNREGISTERED)" false {["/x" := Sample.x_controller]} [] ∅ []
           [("m.ts", post_only)] ∅ ∅.

Definition schema_without_headers : Middleware :=
  mkMiddleware (Some (mkOptions None (Some (mkValidationSchema None None None None))))
               (fun _ => mret (CallNext None)).

Definition schema_without_headers_server : Fastro :=
  mkFastro "Fastro/0.0.0 (UNREGISTERED)" false {["/x" := Sample.x_controller]} [] ∅ []
           [("m.ts", schema_without_headers)] ∅ ∅.

Definition silent : Middleware := mkMiddleware None (fun _ => mret NoCall).

Definition silent_server : Fastro :=
  mkFastro "Fastro/0.0.0 (UNREGISTERED)" false {["/x" := Sample.x_controller]} [] ∅ []
           [("a.ts", silent); ("b.ts", silent)] ∅ ∅.

(** A page without props, and a renderer that fails. *)
Definition plain_page : Page := mkPage VNull NoProps None.

Definition page_server : Fastro :=
  mkFastro "Fastro/0.0.0 (UNREGISTERED)" false ∅ [] {["/p" := plain_page]} [] [] ∅ ∅.

Definition failing_render (_ : Page) (_ : JsValue) (_ : option string) : Result string :=
  Throws (new_Error "render").

End Ref2.

(** * Properties *)

(** ** Splitting strings *)

Lemma split_unfold (c : ascii) (s : string) :
  Str.split c s
  = up_to c s :: match after_first c s with
                 | Some r => Str.split c r
                 | None => []
                 end.
Proof.
  induction s as [|a s IH]; cbn; [reflexivity|].
  destruct (Ascii.eqb a c); [reflexivity|].
  rewrite IH. reflexivity.
Qed.

Lemma split_first (c : ascii) (s d : string) : nth 0 (Str.split c s) d = up_to c s.
Proof. rewrite split_unfold. reflexivity. Qed.

Lemma split_second (c : ascii) (s : string) :
  Str.split c s !! 1%nat = up_to c <$> after_first c s.
Proof.
  rewrite split_unfold. cbn. destruct (after_first c s) as [r|]; [|reflexivity].
  rewrite split_unfold. reflexivity.
Qed.

Lemma split_second_nth (c : ascii) (s d : string) :
  nth 1 (Str.split c s) d = default d (up_to c <$> after_first c s).
Proof.
  rewrite split_unfold. cbn. destruct (after_first c s) as [r|]; [|reflexivity].
  rewrite split_unfold. reflexivity.
Qed.

Lemma split_nonempty (c : ascii) (s : string) : Str.split c s <> [].
Proof. rewrite split_unfold. discriminate. Qed.

Lemma includes_char (c : ascii) (s : string) :
  Str.includes (String c EmptyString) s = match after_first c s with
                                          | Some _ => true
                                          | None => false
                                          end.
Proof.
  induction s as [|a s IH]; cbn; [reflexivity|].
  destruct (ascii_dec c a) as [->|Hne].
  - rewrite Ascii.eqb_refl. destruct s; reflexivity.
  - assert (Ascii.eqb a c = false) as -> by (apply Ascii.eqb_neq; congruence).
    exact IH.
Qed.

(** A body that does not contain the pattern is left as it is. *)
Lemma remove_first_absent (p s : string) :
  Str.includes p s = false -> Str.remove_first p s = s.
Proof.
  induction s as [|a s IH]; cbn.
  - destruct p; [discriminate|reflexivity].
  - intros H. apply orb_false_iff in H as [Hp Hs]. rewrite Hp.
    rewrite (IH Hs). reflexivity.
Qed.

(** ** The string operations mean what their names say *)

Lemma prefix_spec (p s : string) :
  String.prefix p s = true <-> exists b, s = p +:+ b.
Proof.
  revert s. induction p as [|c p IH]; intros s.
  - split; [intros _; exists s; reflexivity|intros _; destruct s; reflexivity].
  - destruct s as [|d s]; cbn.
    + split; [discriminate|intros [b Hb]; discriminate].
    + destruct (ascii_dec c d) as [->|Hne].
      * rewrite IH. split; intros [b Hb]; exists b.
        -- cbn. rewrite Hb. reflexivity.
        -- cbn in Hb. injection Hb as Hb. exact Hb.
      * split; [discriminate|]. intros [b Hb]. cbn in Hb. injection Hb as Hc _.
        congruence.
Qed.

(** [s.includes(p)] holds exactly when [p] occurs in [s]. *)
Lemma includes_spec (p s : string) :
  Str.includes p s = true <-> exists a b, s = a +:+ p +:+ b.
Proof.
  induction s as [|c s IH].
  - cbn [Str.includes]. rewrite orb_false_r, prefix_spec. split.
    + intros [b Hb]. exists "", b. exact Hb.
    + intros (a & b & H). destruct a; cbn in H; [exists b; exact H|discriminate].
  - change (String.prefix p (String c s) || Str.includes p s = true
            <-> (exists a b, String c s = a +:+ p +:+ b)).
    rewrite orb_true_iff, IH, prefix_spec. split.
    + intros [[b Hb]|(a & b & H)].
      * exists "", b. exact Hb.
      * exists (String c a), b. cbn. rewrite H. reflexivity.
    + intros (a & b & H). destruct a as [|d a]; cbn in H.
      * left. exists b. exact H.
      * right. injection H as _ H. exists a, b. exact H.
Qed.

Lemma drop_app (p b : string) : Str.drop (String.length p) (p +:+ b) = b.
Proof. induction p as [|c p IH]; cbn; [destruct b; reflexivity|exact IH]. Qed.

(** [s.replace(p, "")] cuts one occurrence of [p] out of [s], when there is
    one. *)
Lemma remove_first_spec (p s : string) :
  Str.includes p s = true ->
  exists a b, s = a +:+ p +:+ b /\ Str.remove_first p s = a +:+ b.
Proof.
  induction s as [|c s IH]; intros H.
  - cbn [Str.includes] in H. rewrite orb_false_r in H.
    apply prefix_spec in H as [b Hb].
    exists "", b. split; [exact Hb|].
    destruct p; [|discriminate]. simpl in Hb. rewrite <- Hb. reflexivity.
  - destruct (String.prefix p (String c s)) eqn:Hp.
    + pose proof Hp as Hp'. apply prefix_spec in Hp' as [b Hb].
      exists "", b. split; [exact Hb|].
      unfold Str.remove_first; fold Str.remove_first. rewrite Hp.
      rewrite Hb. apply drop_app.
    + assert (Hs : Str.includes p s = true).
      { change (String.prefix p (String c s) || Str.includes p s = true) in H.
        rewrite Hp in H. exact H. }
      destruct (IH Hs) as (a & b & Hab & Hrm).
      exists (String c a), b. split; [cbn; rewrite Hab; reflexivity|].
      unfold Str.remove_first; fold Str.remove_first. rewrite Hp.
      cbn. rewrite Hrm. reflexivity.
Qed.

(** Splitting and joining again gives the string back. *)
Lemma split_join (c : ascii) (s : string) :
  Str.join (String c EmptyString) (Str.split c s) = s.
Proof.
  induction s as [|a s IH]; [reflexivity|].
  cbn [Str.split].
  destruct (Str.split c s) as [|h t] eqn:Hs;
    [exfalso; eapply split_nonempty; exact Hs|].
  destruct (Ascii.eqb a c) eqn:Hac.
  - apply Ascii.eqb_eq in Hac as ->.
    cbn [Str.join]. cbn [Str.join] in IH. rewrite IH. reflexivity.
  - destruct t as [|h' t]; cbn in *; rewrite <- IH; reflexivity.
Qed.

(** ** [JSON.stringify] on small values *)

Example stringify_123 :
  JSON_stringify (VArray [VNumber (NumInt 1); VNumber (NumInt 2); VNumber (NumInt 3)])
  = Returns (Some "[1,2,3]").
Proof. vm_compute. reflexivity. Qed.

Example stringify_nested :
  JSON_stringify (VObject [("a", VArray [VUndefined; VBool true]); ("b", VUndefined);
                           ("c", VString "x")])
  = Returns (Some (("{" +:+ JSON.quote "a" +:+ ":[null,true]," +:+ JSON.quote "c" +:+ ":"
                    +:+ JSON.quote "x" +:+ "}"))).
Proof. vm_compute. reflexivity. Qed.


Ltac unfold_U :=
  unfold mbind, mret, U_bind, U_ret, UM.bind, UM.ret, UM.try_catch, UM.throw,
    UM.of_result, UM.get, UM.modify, console_error, respond in *.

Ltac unfold_M :=
  unfold mbind, mret, M_bind, M_ret, MM.bind, MM.ret, MM.try_catch, MM.throw,
    MM.lift, MM.ghost in *.

(** ** The response sender *)

Lemma stringify_array_text (items : list JsValue) :
  JSON_stringify (VArray items) <> Returns None.
Proof.
  unfold JSON_stringify. cbn.
  match goal with |- context [match ?x with Returns _ => _ | Throws _ => _ end] =>
    destruct x end; discriminate.
Qed.

Lemma stringify_object_text (props : list (string * JsValue)) :
  JSON_stringify (VObject props) <> Returns None.
Proof.
  unfold JSON_stringify. cbn.
  match goal with |- context [match ?x with Returns _ => _ | Throws _ => _ end] =>
    destruct x end; discriminate.
Qed.

(** What [send] hands to [req.respond], in terms of [send_body]. *)
Lemma send_run respond_throws utc_now this payload status headers w :
  exists w', send respond_throws utc_now this payload status headers w = (Returns tt, w') /\
    httpStatus w' = httpStatus w /\ contentType w' = contentType w /\
    response_headers w' = response_headers w /\ unhandled w' = unhandled w /\
    match send_body payload with
    | Throws e =>
        responded w' = responded w /\
        console w' = console w ++ [prefix_message "SEND_ERROR: " e]
    | Returns b =>
        exists h,
          let resp := mkResponse (Some h) (Some (default 200 status)) b in
          responded w' = responded w ++ [resp] /\
          console w' = console w ++
                       match respond_throws resp with
                       | Some e => [prefix_message "SEND_ERROR: " e]
                       | None => []
                       end
    end.
Proof.
  unfold send. unfold_U.
  destruct (send_body payload) as [b|e]; cbn.
  - match goal with |- context [respond_throws ?r] => destruct (respond_throws r) eqn:Hr end;
      cbn; eexists; (split; [reflexivity|]); cbn; repeat split; eexists; cbn;
      rewrite Hr; cbn; split; try reflexivity; symmetry; apply app_nil_r.
  - eexists; split; [reflexivity|]; cbn; repeat split.
Qed.




(** ** The request context's [send] *)



(** ** The error boundary *)

(** C3, as stated, fails on a message that holds both markers: the
    validation test comes last and wins, so the status is 400, not 404. *)
Lemma error_status_both_markers_counterexample :
  Str.includes Ref.NOT_FOUND "VALIDATE_HEADERS_ERROR: NOT_FOUND" = true /\
  map status (responded (snd (Ref.handleRequestError
                                (new_Error "VALIDATE_HEADERS_ERROR: NOT_FOUND")
                                (Ref.GET "/x") fresh_world)))
  = [Some 400].
Proof. vm_compute. split; reflexivity. Qed.

(** Whatever the constant [NOT_FOUND] is, a message that holds it after the
    validation marker gets 400. *)
Lemma error_status_validate_wins (NOT_FOUND : string) :
  Str.includes NOT_FOUND ("VALIDATE " +:+ NOT_FOUND) = true /\
  error_status NOT_FOUND (new_Error ("VALIDATE " +:+ NOT_FOUND)) = 400.
Proof.
  split.
  - apply includes_spec. exists "VALIDATE ", "".
    assert (H : NOT_FOUND +:+ "" = NOT_FOUND).
    { induction NOT_FOUND as [|c s IH]; [reflexivity|].
      change (String c (s +:+ "") = String c s). rewrite IH. reflexivity. }
    rewrite H. reflexivity.
  - unfold error_status. cbn.
    destruct (Str.includes NOT_FOUND _); reflexivity.
Qed.

Lemma stringify_envelope (msg : string) :
  JSON_stringify (VObject [("error", VBool true); ("message", VString msg)])
  = Returns (Some (error_envelope msg)).
Proof. reflexivity. Qed.

(** C3, amended. For every error that reaches it, the error boundary hands
    the transport exactly one response: status 400 if the message contains
    [VALIDATE]; otherwise 404 if it contains [NOT_FOUND]; otherwise 500. The
    body is the JSON envelope with [error] true and the message, and the
    only header is the content type [application/json]. *)
Theorem handleRequestError_response :
  forall createError NOT_FOUND CONTENT_TYPE respond_throws error serverRequest w,
    responded (snd (handleRequestError createError NOT_FOUND CONTENT_TYPE respond_throws
                                       error serverRequest w))
    = responded w ++
      [mkResponse
         (Some [(Str.lower CONTENT_TYPE, "application/json")])
         (Some (if Str.includes "VALIDATE" (message error) then 400
                else if Str.includes NOT_FOUND (message error) then 404
                else 500))
         (Some (BodyText (error_envelope (message error))))].
Proof.
  intros. unfold handleRequestError. unfold_U. rewrite stringify_envelope. cbn.
  unfold error_status.
  match goal with |- context [respond_throws ?r] => destruct (respond_throws r) end;
    cbn; destruct (Str.includes "VALIDATE" (message error));
    destruct (Str.includes NOT_FOUND (message error)); reflexivity.
Qed.

(** ** The url-encoded decoder *)

Lemma decode_segment_spec dec parse (seg : string) :
  match decode_segment dec parse seg with
  | Returns d => decoded_as dec parse seg d
  | Throws _ => forall d, ~ decoded_as dec parse seg d
  end.
Proof.
  unfold decode_segment, decoded_as.
  rewrite split_first, split_second_nth, includes_char.
  destruct (after_first "=" seg) as [r|]; cbn.
  - destruct (dec (up_to "=" r)) as [v'|e] eqn:Hv; cbn.
    + destruct (dec (up_to "=" seg)) as [k|e] eqn:Hk; cbn.
      * exists k, (up_to "=" r). repeat split. exists v'. split; [exact Hv|reflexivity].
      * intros d (k & v & Hk' & _). congruence.
    + intros d (k & v & _ & Hsome & v' & Hv' & _). congruence.
  - destruct (parse seg) as [d|e] eqn:Hp; [reflexivity|].
    intros d Hd. congruence.
Qed.

Lemma forEach_push_spec {A B} (f : A -> Result B) (R : A -> B -> Prop) :
  (forall x, match f x with
             | Returns y => R x y
             | Throws _ => forall y, ~ R x y
             end) ->
  forall l, match forEach_push f l with
            | Returns ys => Forall2 R l ys
            | Throws _ => forall ys, ~ Forall2 R l ys
            end.
Proof.
  intros Hf. induction l as [|x l IH]; cbn.
  - constructor.
  - specialize (Hf x). destruct (f x) as [y|e]; cbn.
    + destruct (forEach_push f l) as [ys|e]; cbn.
      * constructor; assumption.
      * intros ys' H. inversion H; subst. eapply IH; eassumption.
    + intros ys' H. inversion H; subst. eapply Hf; eassumption.
Qed.



(** ** The query API *)

Lemma add_pair_spec obj (q : string) :
  add_pair obj q = obj_set (fst (pair_of q)) (snd (pair_of q)) obj.
Proof.
  unfold add_pair, pair_of. rewrite split_first, split_second. cbn.
  destruct (after_first "=" q); reflexivity.
Qed.

Lemma fold_add_pair (l : list string) obj :
  fold_left add_pair l obj
  = fold_left (fun obj seg => obj_set (fst (pair_of seg)) (snd (pair_of seg)) obj) l obj.
Proof.
  revert obj. induction l as [|q l IH]; intros obj; cbn; [reflexivity|].
  rewrite add_pair_spec. apply IH.
Qed.

Lemma validateQuery_no_dynamic vo this query (url : string) :
  dynamicController this = [] -> validateQuery vo this query url = Returns tt.
Proof. intros H. unfold validateQuery. rewrite H. reflexivity. Qed.




(** C5. The code does not do what the property asks: [validateQuery] looks
    for a [params] schema, not for a [querystring] schema. When the first
    parametrized route whose key occurs in the URL declares no [params]
    schema, the query is not validated at all, whatever [querystring]
    schema the route declares and whatever the validator would say. *)
Theorem validateQuery_skipped_without_params_schema :
  forall validateObject this query url handler o vs,
    first_match (fun val => Str.includes (dc_url val) url) (dynamicController this)
    = Some handler ->
    c_options (dc_controller handler) = Some o ->
    validationSchema o = Some vs ->
    vs_params vs = None ->
    validateQuery validateObject this query url = Returns tt.
Proof.
  intros vo this query url handler o vs Hh Ho Hvs Hp.
  unfold validateQuery. rewrite Hh, Ho, Hvs, Hp. reflexivity.
Qed.

(** The failing input: the route [/hello] declares a [querystring] schema
    that requires [id]; the query of [/hello?name=x] has no [id], the
    validator would refuse it, and [getQuery] returns it all the same. *)
Lemma validateQuery_skipped_witness :
  vs_querystring (mkValidationSchema None None (Some Sample.id_schema) None)
  = Some Sample.id_schema /\
  Ref.validateObject (VObject [("name", VString "x")]) (Some Sample.id_schema)
  = Throws (new_Error "VALIDATION_ERROR") /\
  validateQuery Ref.validateObject Sample.hello_server
                (VObject [("name", VString "x")]) "/hello?name=x"
  = Returns tt /\
  Ref.getQuery Sample.hello_server None "/hello?name=x"
  = Returns (VObject [("name", VString "x")]).
Proof.
  split; [reflexivity|]. split; [reflexivity|].
  assert (H : forall q, validateQuery Ref.validateObject Sample.hello_server q "/hello?name=x"
                        = Returns tt).
  { intros q.
    apply (validateQuery_skipped_without_params_schema
             Ref.validateObject Sample.hello_server q "/hello?name=x"
             (mkDynamicController "/hello" Sample.hello_controller)
             (mkOptions (Some ["GET"%string])
                        (Some (mkValidationSchema None None (Some Sample.id_schema) None)))
             (mkValidationSchema None None (Some Sample.id_schema) None));
      reflexivity. }
  split; [apply H|].
  unfold Ref.getQuery, getQuery. cbn. rewrite H. reflexivity.
Defined.

(** ** The dispatcher *)

Lemma first_match_find {A} (p : A -> bool) (l : list A) :
  first_match p l = List.find p l.
Proof.
  unfold first_match. induction l as [|x l IH]; [reflexivity|].
  rewrite filter_cons. cbn [List.find]. destruct (p x) eqn:Hp.
  - rewrite decide_True by reflexivity. reflexivity.
  - rewrite decide_False by discriminate. exact IH.
Qed.

Section Dispatch.

Variable createError : string -> Error -> Error.
Variable validateObject : JsValue -> option Schema -> Result unit.
Variable NOT_FOUND : string.
Variable CONTENT_TYPE : string.
Variable FASTRO_VERSION : string.
Variable respond_throws : Response -> option Error.
Variable utc_now : string.
Variable getCookies : Headers -> JsValue.
Variable renderComponent : Page -> JsValue -> option string -> Result string.
Variable this : Fastro.

Local Abbreviation handleRoute' :=
  (handleRoute createError validateObject NOT_FOUND CONTENT_TYPE respond_throws utc_now
               getCookies renderComponent this).
Local Abbreviation terminal' :=
  (terminal createError validateObject NOT_FOUND CONTENT_TYPE respond_throws utc_now
            getCookies renderComponent this).
Local Abbreviation handleRequest' :=
  (handleRequest createError validateObject NOT_FOUND CONTENT_TYPE FASTRO_VERSION
                 respond_throws utc_now getCookies renderComponent this).
Local Abbreviation handleRequestError' :=
  (handleRequestError createError NOT_FOUND CONTENT_TYPE respond_throws).

(** The routing step is the step of entering it followed by the terminal
    step of what the path resolves to. *)
Lemma handleRoute_resolves (request : Request) (w : World) :
  handleRoute' request w
  = (MM.ghost GEnterRoute;; terminal' (resolve this (url request)) request) w.
Proof.
  unfold handleRoute, resolve, terminal.
  destruct (controller this !! url request) as [c|]; [reflexivity|].
  unfold handleDynamicParams. rewrite first_match_find.
  destruct (List.find _ (dynamicController this)) as [dc|]; [reflexivity|].
  unfold handlePage.
  destruct (pages this !! url request) as [p|]; [reflexivity|].
  unfold handleDynamicPage. rewrite first_match_find.
  destruct (List.find _ (dynamicPage this)) as [dp|]; [reflexivity|].
  unfold handleStaticFile.
  destruct (static_lookup this (url request)) as [content|]; reflexivity.
Qed.


(** C1. A request whose path is not [/], on a server without middleware,
    goes through the lookups in this order: the exact controller table by
    full path; if that misses, the first registered parametrized controller
    whose key occurs in the path; then the exact page table; then the first
    parametrized page whose key occurs in the path; then the static files
    by full path (the store hits when it holds truthy content, as the code
    tests it). The request runs the terminal step of the first hit and of
    no other; when every lookup misses it fails with the error [NOT_FOUND],
    wrapped by the three functions it went through. The failure, like any
    other, ends in the error boundary. *)
Theorem dispatch_resolution_order :
  forall request w,
    url request <> "/" ->
    middlewares this = [] ->
    handleRequest' request w
    = MM.try_catch
        (MM.lift transformRequest;;
         MM.ghost GEnterRoute;;
         terminal' (resolve this (url request)) request)
        (fun error => MM.lift (handleRequestError' error request)) w.
Proof.
  intros request w Hurl Hmw. unfold handleRequest.
  apply String.eqb_neq in Hurl. rewrite Hurl, Hmw. cbn [length Nat.eqb negb].
  unfold MM.try_catch, mbind, M_bind, MM.bind.
  destruct (MM.lift transformRequest w) as [[[[]|e] w0] t0]; [|reflexivity].
  rewrite handleRoute_resolves. reflexivity.
Qed.


(** *** Traces *)

Lemma only_ret {A} P (a : A) : only P (mret a).
Proof. intros w. reflexivity. Qed.

Lemma only_throw {A} P (e : Error) : only P (@MM.throw A e).
Proof. intros w. reflexivity. Qed.

Lemma only_lift {A} P (m : U A) : only P (MM.lift m).
Proof. intros w. reflexivity. Qed.

Lemma only_ghost P (g : Ghost) : P g = true -> only P (MM.ghost g).
Proof. intros H w. cbn. rewrite H. reflexivity. Qed.

Lemma only_bind {A B} P (m : M A) (k : A -> M B) :
  only P m -> (forall a, only P (k a)) -> only P (m ≫= k).
Proof.
  intros Hm Hk w. specialize (Hm w). unfold_M.
  destruct (m w) as [[[a|e] w'] t]; cbn in *; [|exact Hm].
  specialize (Hk a w'). destruct (k a w') as [[r w''] t']. cbn in *.
  rewrite forallb_app, Hm, Hk. reflexivity.
Qed.

Lemma only_try_catch {A} P (m : M A) (h : Error -> M A) :
  only P m -> (forall e, only P (h e)) -> only P (MM.try_catch m h).
Proof.
  intros Hm Hh w. specialize (Hm w). unfold_M.
  destruct (m w) as [[[a|e] w'] t]; cbn in *; [exact Hm|].
  specialize (Hh e w'). destruct (h e w') as [[r w''] t']. cbn in *.
  rewrite forallb_app, Hm, Hh. reflexivity.
Qed.

Lemma only_guarded {A} P (label : string) (m : M A) :
  only P m -> only P (guarded createError label m).
Proof. intros Hm. apply only_try_catch; [exact Hm|]. intros e. apply only_throw. Qed.

Lemma run_controller_only t c request :
  only is_terminal (run_controller validateObject NOT_FOUND t c request).
Proof.
  unfold run_controller. destruct (method_rejected _ _); [apply only_throw|].
  apply only_bind; [apply only_lift|]. intros _.
  apply only_bind; [apply only_ghost; reflexivity|]. intros _. apply only_lift.
Qed.

(** A terminal step emits terminal events only. *)
Lemma terminal_only (r : Resolution) (request : Request) :
  only is_terminal (terminal' r request).
Proof.
  destruct r; cbn [terminal]; repeat apply only_guarded;
    try apply run_controller_only; try apply only_throw;
    unfold run_page, run_static;
    (apply only_bind; [apply only_ghost; reflexivity|]; intros _; apply only_lift).
Qed.

Lemma handleRoute_trace (request : Request) (w : World) :
  exists tr, snd (handleRoute' request w) = GEnterRoute :: tr /\
             forallb is_terminal tr = true.
Proof.
  rewrite handleRoute_resolves.
  pose proof (terminal_only (resolve this (url request)) request w) as H.
  unfold_M. cbn.
  destruct (terminal' (resolve this (url request)) request w) as [[r w'] tr].
  cbn in *. exists tr. split; [reflexivity|exact H].
Qed.

(** *** The middleware runner *)

Local Abbreviation run_middleware' :=
  (run_middleware createError validateObject NOT_FOUND CONTENT_TYPE respond_throws utc_now
                  getCookies renderComponent this).
Local Abbreviation forEach_middleware' :=
  (forEach_middleware createError validateObject NOT_FOUND CONTENT_TYPE respond_throws
                      utc_now getCookies renderComponent this).
Local Abbreviation handleMiddleware' :=
  (handleMiddleware createError validateObject NOT_FOUND CONTENT_TYPE respond_throws
                    utc_now getCookies renderComponent this).

(** The four shapes of the trace of one middleware: refused before it runs;
    run without a call of its continuation (or thrown); continuation called
    with an error; continuation called without one, which enters routing. *)
Lemma run_middleware_trace (request : Request) (key : string) (m : Middleware) (w : World) :
  let tr := snd (run_middleware' request (key, m) w) in
  tr = [] \/
  tr = [GMiddleware key] \/
  tr = [GMiddleware key; GNext key true] \/
  exists tr', tr = GMiddleware key :: GNext key false :: GEnterRoute :: tr' /\
              forallb is_terminal tr' = true.
Proof.
  cbn zeta. unfold run_middleware.
  destruct (method_rejected (m_options m) request); [left; reflexivity|].
  unfold_M. cbn.
  destruct (middleware_header_check validateObject (m_options m) request) as [[]|e];
    [|left; reflexivity].
  cbn. destruct (m_default m request w) as [[[[e|]|]|e] w1]; unfold next; unfold_M; cbn.
  - right. right. left. reflexivity.
  - right. right. right.
    destruct (handleRoute_trace request w1) as (tr & Htr & Hterm).
    destruct (handleRoute' request w1) as [[r w2] t]. cbn in *. subst t.
    exists tr. split; [reflexivity|exact Hterm].
  - right. left. reflexivity.
  - right. left. reflexivity.
Qed.

Lemma terminal_not_routing (tr : list Ghost) :
  forallb is_terminal tr = true -> List.filter routing_event tr = [].
Proof.
  induction tr as [|g tr IH]; cbn; [reflexivity|].
  intros H. apply andb_true_iff in H as [Hg Htr].
  destruct g; try discriminate. cbn. exact (IH Htr).
Qed.

Lemma terminal_no_next (tr : list Ghost) (k : string) (b : bool) :
  forallb is_terminal tr = true -> ~ In (GNext k b) tr.
Proof.
  intros H Hin. rewrite forallb_forall in H. specialize (H _ Hin). discriminate.
Qed.

(** Only its own key appears in the continuation events of a middleware. *)
Lemma run_middleware_next_key request key m w (k : string) (b : bool) :
  In (GNext k b) (snd (run_middleware' request (key, m) w)) -> k = key.
Proof.
  destruct (run_middleware_trace request key m w) as [H|[H|[H|(tr' & H & Hterm)]]];
    cbn zeta in H; rewrite H; cbn; intros Hin.
  - contradiction.
  - destruct Hin as [Hin|[]]. discriminate.
  - destruct Hin as [Hin|[Hin|[]]]; congruence.
  - destruct Hin as [Hin|[Hin|[Hin|Hin]]]; try congruence.
    exfalso. eapply terminal_no_next; eassumption.
Qed.

(** A continuation called without an error is followed by the entry into
    routing, and by nothing else that concerns routing. *)
Lemma run_middleware_next_ok request key m w :
  In (GNext key false) (snd (run_middleware' request (key, m) w)) ->
  List.filter routing_event (snd (run_middleware' request (key, m) w))
  = [GNext key false; GEnterRoute].
Proof.
  destruct (run_middleware_trace request key m w) as [H|[H|[H|(tr' & H & Hterm)]]];
    cbn zeta in H; rewrite H; cbn; intros Hin.
  - contradiction.
  - destruct Hin as [Hin|[]]. discriminate.
  - destruct Hin as [Hin|[Hin|[]]]; congruence.
  - rewrite (terminal_not_routing _ Hterm). reflexivity.
Qed.

Lemma forEach_middleware_cons request entry l w :
  forEach_middleware' request (entry :: l) w
  = match run_middleware' request entry w with
    | (Returns _, w', t) =>
        match forEach_middleware' request l w' with
        | (r, w'', t') => (r, w'', t ++ t')
        end
    | (Throws e, w', t) => (Throws e, w', t)
    end.
Proof. reflexivity. Qed.

Lemma forEach_middleware_next_keys request l :
  forall w (k : string) (b : bool),
    In (GNext k b) (snd (forEach_middleware' request l w)) -> In k (map fst l).
Proof.
  induction l as [|[key m] l IH]; intros w k b.
  - cbn. contradiction.
  - rewrite forEach_middleware_cons.
    pose proof (run_middleware_next_key request key m w k b) as Hkey.
    destruct (run_middleware' request (key, m) w) as [[[[]|e] w'] t]; cbn in *.
    + specialize (IH w' k b).
      destruct (forEach_middleware' request l w') as [[r w''] t']. cbn in *.
      intros Hin. apply in_app_or in Hin as [Hin|Hin]; [left|right]; auto.
      symmetry. auto.
    + intros Hin. left. symmetry. auto.
Qed.

Lemma forEach_middleware_all_next request l :
  List.NoDup (map fst l) ->
  forall w,
    (forall k : string,
        In k (map fst l) -> In (GNext k false) (snd (forEach_middleware' request l w))) ->
    List.filter routing_event (snd (forEach_middleware' request l w))
    = flat_map (fun k => [GNext k false; GEnterRoute]) (map fst l).
Proof.
  induction l as [|[key m] l IH]; intros Hnd w Hall; [reflexivity|].
  cbn [map fst] in Hnd. apply List.NoDup_cons_iff in Hnd as [Hfresh Hnd].
  rewrite forEach_middleware_cons in *.
  pose proof (run_middleware_next_key request key m w) as Hkey.
  pose proof (run_middleware_next_ok request key m w) as Hok.
  pose proof (forEach_middleware_next_keys request l) as Hkeys.
  destruct (run_middleware' request (key, m) w) as [[[[]|e] w'] t]; cbn in *.
  - specialize (IH Hnd w'). specialize (Hkeys w').
    destruct (forEach_middleware' request l w') as [[r w''] t']. cbn in *.
    assert (Hhere : In (GNext key false) t).
    { destruct (in_app_or _ _ _ (Hall key (or_introl eq_refl))) as [H|H]; [exact H|].
      exfalso. apply Hfresh. eapply Hkeys. exact H. }
    rewrite List.filter_app, (Hok Hhere). cbn. f_equal. f_equal.
    apply IH. intros k Hk.
    destruct (in_app_or _ _ _ (Hall k (or_intror Hk))) as [H|H]; [|exact H].
    exfalso. apply Hfresh. rewrite <- (Hkey _ _ H). exact Hk.
  - rewrite (Hok (Hall key (or_introl eq_refl))).
    destruct l as [|[key' m'] l]; [reflexivity|].
    exfalso. apply Hfresh. cbn.
    left. apply (Hkey key' false). apply Hall. right. left. reflexivity.
Qed.

Lemma enter_count (keys : list string) :
  length (List.filter is_enter
            (flat_map (fun k => [GNext k false; GEnterRoute]) keys))
  = length keys.
Proof. induction keys as [|k keys IH]; cbn; [reflexivity|]. rewrite IH. reflexivity. Qed.

Lemma filter_enter_routing (tr : list Ghost) :
  List.filter is_enter (List.filter routing_event tr) = List.filter is_enter tr.
Proof.
  induction tr as [|g tr IH]; cbn; [reflexivity|].
  destruct g; cbn; rewrite IH; reflexivity.
Qed.

(** Under middleware, the trace of a request is the trace of the runner. *)
Lemma handleRequest_middleware_trace (request : Request) (w : World) :
  url request <> "/" ->
  middlewares this <> [] ->
  snd (handleRequest' request w)
  = snd (forEach_middleware' request (middlewares this) (snd (transformRequest w))).
Proof.
  intros Hurl Hmw. unfold handleRequest, handleMiddleware, guarded.
  apply String.eqb_neq in Hurl. rewrite Hurl.
  assert (Hlen : negb (Nat.eqb (length (middlewares this)) 0) = true)
    by (destruct (middlewares this); [congruence|reflexivity]).
  rewrite Hlen.
  generalize (forEach_middleware' request (middlewares this)). intros run.
  unfold_M. unfold transformRequest. cbn.
  destruct (run _) as [[[[]|e] w'] t]; cbn.
  - reflexivity.
  - destruct (handleRequestError' _ _ _). cbn. rewrite !app_nil_r. reflexivity.
Qed.


Lemma forEach_middleware_app request l1 l2 w :
  forEach_middleware' request (l1 ++ l2) w
  = match forEach_middleware' request l1 w with
    | (Returns _, w', t) =>
        match forEach_middleware' request l2 w' with
        | (r, w'', t') => (r, w'', t ++ t')
        end
    | (Throws e, w', t) => (Throws e, w', t)
    end.
Proof.
  revert w. induction l1 as [|entry l1 IH]; intros w.
  - cbn. destruct (forEach_middleware' request l2 w) as [[r w''] t']. reflexivity.
  - cbn [app]. rewrite !forEach_middleware_cons.
    destruct (run_middleware' request entry w) as [[[[]|e] w'] t]; [|reflexivity].
    rewrite IH.
    destruct (forEach_middleware' request l1 w') as [[[[]|e] w''] t']; [|reflexivity].
    destruct (forEach_middleware' request l2 w'') as [[r w3] t3].
    rewrite app_assoc. reflexivity.
Qed.

(** C6, amended. When a middleware, reached after the ones registered
    before it have completed, calls its continuation with an error, the
    runner throws that error (with the message [Middleware error: key] put
    in when it had none), wrapped as [HANDLE_MIDDLEWARE_ERROR]; the chain
    stops there: no later middleware runs, routing is not entered again and
    no route handler is invoked from that point on. The trace of the request
    is that of the earlier middleware followed by the call of this one and
    of its continuation; a handler invoked through an earlier middleware
    stays invoked, and when the failing middleware is the first, no handler
    is invoked at all. *)
Theorem middleware_error_aborts :
  forall request pre key m post e w w1 tr1 w2,
    middlewares this = pre ++ (key, m) :: post ->
    forEach_middleware' request pre w = (Returns tt, w1, tr1) ->
    method_rejected (m_options m) request = false ->
    middleware_header_check validateObject (m_options m) request = Returns tt ->
    m_default m request w1 = (Returns (CallNext (Some e)), w2) ->
    handleMiddleware' request w
    = (Throws (createError "HANDLE_MIDDLEWARE_ERROR" (annotated key e)), w2,
       tr1 ++ [GMiddleware key; GNext key true]).
Proof.
  intros request pre key m post e w w1 tr1 w2 Hmw Hpre Hmeth Hhdr Hdef.
  unfold handleMiddleware, guarded. rewrite Hmw.
  unfold MM.try_catch. rewrite forEach_middleware_app, Hpre, forEach_middleware_cons.
  unfold run_middleware. rewrite Hmeth, Hhdr. unfold_M. cbn. rewrite Hdef.
  unfold next, annotated. unfold_M. cbn. rewrite !app_nil_r.
  destruct (message e); reflexivity.
Qed.

End Dispatch.

(** On the server that holds one style sheet, the request for it resolves
    to the static file, and nothing else runs. *)
Lemma dispatch_resolution_order_witness :
  Ref.handleRequest Sample.file_server (Ref.GET "/a.css") fresh_world
  = (Returns tt,
     mkWorld None None []
             [mkResponse
                (Some [("content-type", "text/css"); ("connection", "keep-alive");
                       ("date", Ref.utc_now);
                       ("x-powered-by", appStatus Sample.file_server)])
                (Some 200) (Some (BodyText "p{}"))]
             [] [],
     [GEnterRoute; GTerminal (ToStaticFile "/a.css")]).
Proof.
  unfold Ref.handleRequest.
  rewrite (dispatch_resolution_order
             Ref.createError Ref.validateObject Ref.NOT_FOUND Ref.CONTENT_TYPE
             Ref.FASTRO_VERSION Ref.respond_throws Ref.utc_now Ref.getCookies
             Ref.renderComponent Sample.file_server (Ref.GET "/a.css") fresh_world).
  - vm_compute. reflexivity.
  - discriminate.
  - reflexivity.
Defined.

(** A stored file with empty content is falsy, and the static lookup takes
    it for missing: the request for it ends in the error boundary. *)
Example empty_static_file_not_found :
  static_lookup Sample.empty_file_server "/e.css" = None /\
  snd (Ref.handleRequest Sample.empty_file_server (Ref.GET "/e.css") fresh_world)
  = [GEnterRoute] /\
  map status (responded (snd (fst (Ref.handleRequest Sample.empty_file_server
                                                     (Ref.GET "/e.css") fresh_world))))
  = [Some 404].
Proof. vm_compute. repeat split. Qed.


(** When the routing pass of the first middleware raises, here because no
    route matches, the runner stops: the second middleware is never called,
    its continuation never runs, and routing was entered once. *)
Example unrouted_pass_runs_once :
  snd (Ref.handleRequest Sample.two_pass_unrouted (Ref.GET "/x") fresh_world)
  = [GMiddleware "a.ts"; GNext "a.ts" false; GEnterRoute].
Proof. vm_compute. reflexivity. Qed.

(** C6, as stated, fails when a middleware registered earlier has
    continued: behind [a.ts], which calls [next()], and [b.ts], which calls
    [next(err)], the handler of [/x] is invoked and answers before the
    error of [b.ts] ends the request. *)
Lemma middleware_error_after_routing_counterexample :
  snd (Ref.handleRequest Sample.pass_fail_server (Ref.GET "/x") fresh_world)
  = [GMiddleware "a.ts"; GNext "a.ts" false; GEnterRoute; GTerminal (ToController "/x");
     GMiddleware "b.ts"; GNext "b.ts" true] /\
  head (map (fun r => (status r, body r))
            (responded (snd (fst (Ref.handleRequest Sample.pass_fail_server (Ref.GET "/x")
                                                    fresh_world)))))
  = Some (Some 200, Some (BodyText "ok")).
Proof. vm_compute. split; reflexivity. Qed.

(** Behind the single failing middleware [b.ts], the request for [/x] ends
    with the annotated error and without any handler invoked. *)
Lemma middleware_error_aborts_witness :
  Ref.handleMiddleware Sample.fail_server (Ref.GET "/x") fresh_world
  = (Throws (mkError "HANDLE_MIDDLEWARE_ERROR" "Middleware error: b.ts"), fresh_world,
     [GMiddleware "b.ts"; GNext "b.ts" true]).
Proof.
  apply (middleware_error_aborts
           Ref.createError Ref.validateObject Ref.NOT_FOUND Ref.CONTENT_TYPE
           Ref.respond_throws Ref.utc_now Ref.getCookies Ref.renderComponent
           Sample.fail_server (Ref.GET "/x") [] "b.ts"
           (Sample.fail_with (new_Error "")) [] (new_Error "")
           fresh_world fresh_world [] fresh_world); reflexivity.
Defined.

(** * Further properties of the code *)

(** ** Header sets *)

Lemma hdr_find_map (n v : string) (h : Headers) :
  List.find (fun kv => String.eqb (fst kv) n)
            (map (fun kv : string * string => if String.eqb (fst kv) n then (n, v) else kv) h)
  = match List.find (fun kv => String.eqb (fst kv) n) h with
    | Some _ => Some (n, v)
    | None => None
    end.
Proof.
  induction h as [|[k x] h IH]; [reflexivity|]. cbn.
  destruct (String.eqb k n) eqn:Hk; cbn.
  - rewrite String.eqb_refl. reflexivity.
  - rewrite Hk. exact IH.
Qed.

Lemma hdr_find_exists (n : string) (h : Headers) :
  existsb (fun kv => String.eqb (fst kv) n) h
  = match List.find (fun kv => String.eqb (fst kv) n) h with
    | Some _ => true
    | None => false
    end.
Proof.
  induction h as [|[k x] h IH]; [reflexivity|]. cbn.
  destruct (String.eqb k n); [reflexivity|exact IH].
Qed.

Lemma hdr_find_app (n : string) (h h' : Headers) :
  List.find (fun kv => String.eqb (fst kv) n) (h ++ h')
  = match List.find (fun kv => String.eqb (fst kv) n) h with
    | Some kv => Some kv
    | None => List.find (fun kv => String.eqb (fst kv) n) h'
    end.
Proof.
  induction h as [|[k x] h IH]; [reflexivity|]. cbn.
  destruct (String.eqb k n); [reflexivity|exact IH].
Qed.

(** Reading a header that was just set gives the value set, whatever the
    case of the two names. *)
Lemma hdr_get_set_same (n n' v : string) (h : Headers) :
  Str.lower n = Str.lower n' -> Hdr.get n (Hdr.set n' v h) = Some v.
Proof.
  intros Hn. unfold Hdr.get, Hdr.set. rewrite Hn, hdr_find_exists.
  destruct (List.find _ h) as [kv|] eqn:Hf.
  - rewrite hdr_find_map, Hf. reflexivity.
  - rewrite hdr_find_app, Hf. cbn. rewrite String.eqb_refl. reflexivity.
Qed.

Lemma hdr_find_map_other (n m v : string) (h : Headers) :
  n <> m ->
  List.find (fun kv => String.eqb (fst kv) n)
            (map (fun kv : string * string => if String.eqb (fst kv) m then (m, v) else kv) h)
  = List.find (fun kv => String.eqb (fst kv) n) h.
Proof.
  intros Hne. induction h as [|[k x] h IH]; [reflexivity|]. cbn.
  destruct (String.eqb k m) eqn:Hk; cbn.
  - apply String.eqb_eq in Hk. subst k.
    assert (String.eqb m n = false) as -> by (apply String.eqb_neq; congruence).
    exact IH.
  - destruct (String.eqb k n); [reflexivity|exact IH].
Qed.

(** Setting one header leaves the others as they were. *)
Lemma hdr_get_set_other (n n' v : string) (h : Headers) :
  Str.lower n <> Str.lower n' -> Hdr.get n (Hdr.set n' v h) = Hdr.get n h.
Proof.
  intros Hn. unfold Hdr.get, Hdr.set.
  destruct (existsb _ h).
  - rewrite hdr_find_map_other by exact Hn. reflexivity.
  - rewrite hdr_find_app.
    destruct (List.find _ h); [reflexivity|]. cbn.
    assert (String.eqb (Str.lower n') (Str.lower n) = false) as ->
        by (apply String.eqb_neq; congruence).
    reflexivity.
Qed.

(** ** What [send] puts on every response *)

Ltac hdr_fixed :=
  repeat first [ rewrite hdr_get_set_same by reflexivity
               | rewrite hdr_get_set_other by (vm_compute; discriminate) ].

Ltac hdr_free Hn :=
  repeat (rewrite hdr_get_set_other
           by (let E := fresh in intro E; apply Hn; rewrite E; vm_compute; tauto)).

Lemma send_run_headers respond_throws utc_now this payload status headers w b :
  send_body payload = Returns b ->
  let cookie := Hdr.get "set-cookie" (response_headers w) in
  let h0 := default [] headers in
  let h1 := match cookie with
            | Some c => if truthy_string c then Hdr.set "Set-Cookie" c h0 else h0
            | None => h0
            end in
  let h2 := Hdr.set "x-powered-by" (appStatus this)
              (Hdr.set "Date" utc_now (Hdr.set "Connection" "keep-alive" h1)) in
  let h3 := if corsEnabled this then
              Hdr.set "Access-Control-Allow-Methods" "*"
                (Hdr.set "Access-Control-Allow-Headers" "*"
                   (Hdr.set "Access-Control-Allow-Origin" "*" h2))
            else h2 in
  responded (snd (send respond_throws utc_now this payload status headers w))
  = responded w ++ [mkResponse (Some h3) (Some (default 200 status)) b].
Proof.
  intros Hb. cbn zeta. unfold send. unfold_U. rewrite Hb. cbn.
  match goal with |- context [respond_throws ?r] => destruct (respond_throws r) end;
    reflexivity.
Qed.

(** X1. Every response that [send] writes carries [Connection: keep-alive],
    the date and the [x-powered-by] banner, whatever the caller passed under
    those names; it carries the three wildcard CORS headers exactly when
    CORS is enabled (otherwise what the caller passed under those names); a
    non-empty staged [Set-Cookie] replaces the caller's; and every other
    header of the caller goes through unchanged. *)
Theorem send_response_headers :
  forall respond_throws utc_now this payload status headers w b,
    send_body payload = Returns b ->
    exists h,
      responded (snd (send respond_throws utc_now this payload status headers w))
      = responded w ++ [mkResponse (Some h) (Some (default 200 status)) b] /\
      Hdr.get "Connection" h = Some "keep-alive" /\
      Hdr.get "Date" h = Some utc_now /\
      Hdr.get "X-Powered-By" h = Some (appStatus this) /\
      (forall n, In (Str.lower n) ["access-control-allow-origin";
                                   "access-control-allow-headers";
                                   "access-control-allow-methods"] ->
                 Hdr.get n h = if corsEnabled this then Some "*"
                               else Hdr.get n (default [] headers)) /\
      Hdr.get "Set-Cookie" h
      = match Hdr.get "set-cookie" (response_headers w) with
        | Some (String c s) => Some (String c s)
        | _ => Hdr.get "Set-Cookie" (default [] headers)
        end /\
      (forall n, ~ In (Str.lower n) ["set-cookie"; "connection"; "date"; "x-powered-by";
                                     "access-control-allow-origin";
                                     "access-control-allow-headers";
                                     "access-control-allow-methods"] ->
                 Hdr.get n h = Hdr.get n (default [] headers)).
Proof.
  intros rt now this payload status headers w b Hb.
  eexists. split; [apply (send_run_headers rt now this payload status headers w b Hb)|].
  set (h0 := default [] headers).
  destruct (Hdr.get "set-cookie" (response_headers w)) as [[|c s]|];
    destruct (corsEnabled this); cbn [truthy_string];
    (split; [hdr_fixed; reflexivity|]);
    (split; [hdr_fixed; reflexivity|]);
    (split; [hdr_fixed; reflexivity|]);
    (split; [intros n [Hn|[Hn|[Hn|[]]]];
             repeat first [ rewrite hdr_get_set_same by (rewrite <- Hn; reflexivity)
                          | rewrite hdr_get_set_other
                              by (rewrite <- Hn; vm_compute; discriminate) ];
             reflexivity|]);
    (split; [hdr_fixed; reflexivity|]);
    intros n Hn; hdr_free Hn; reflexivity.
Qed.

(** The staged cookie and a caller's header on the response of the empty
    server. *)
Lemma send_response_headers_witness :
  exists h,
    responded (snd (Ref.send Ref.empty_server (VString "x") None (Some [("x-a", "1")])
                             (mkWorld None None [("set-cookie", "k=v")] [] [] [])))
    = [mkResponse (Some h) (Some 200) (Some (BodyText "x"))] /\
    Hdr.get "Set-Cookie" h = Some "k=v" /\
    Hdr.get "X-A" h = Some "1".
Proof.
  destruct (send_response_headers Ref.respond_throws Ref.utc_now Ref.empty_server
              (VString "x") None (Some [("x-a", "1")])
              (mkWorld None None [("set-cookie", "k=v")] [] [] [])
              (Some (BodyText "x")) eq_refl)
    as (h & Hr & _ & _ & _ & _ & Hc & Hfree).
  exists h. split; [exact Hr|]. split; [exact Hc|].
  rewrite Hfree; [reflexivity|]. vm_compute. intuition discriminate.
Defined.

(** ** Cookies by name *)

Lemma cookie_pair_spec trim (v : string) :
  cookie_pair trim v
  = (trim (up_to "=" v),
     match after_first "=" v with
     | Some r => VString (up_to "=" r)
     | None => VUndefined
     end).
Proof.
  unfold cookie_pair. rewrite split_first, split_second.
  destruct (after_first "=" v); reflexivity.
Qed.

(** X2. [getCookie(name)] gives the empty string when the request has no
    [Cookie] header or no cookie of that name. Otherwise it gives the value
    of the first segment of the header, split on semicolons, whose name,
    trimmed, is [name]: the text between the first equals sign of the
    segment and the next one, untrimmed, or [undefined] when the segment has
    no equals sign. *)
Theorem getCookiesByName_first_match :
  forall trim name request,
    getCookiesByName trim name request
    = match Hdr.get "cookie" (req_headers request) with
      | None => VString ""
      | Some header =>
          match List.find (fun seg => String.eqb (trim (up_to "=" seg)) name)
                          (Str.split ";" header) with
          | None => VString ""
          | Some seg =>
              match after_first "=" seg with
              | Some r => VString (up_to "=" r)
              | None => VUndefined
              end
          end
      end.
Proof.
  intros trim name request. unfold getCookiesByName.
  destruct (Hdr.get "cookie" (req_headers request)) as [header|]; [|reflexivity].
  induction (Str.split ";" header) as [|seg l IH]; [reflexivity|].
  cbn [map List.filter List.find]. rewrite cookie_pair_spec. cbn [fst snd].
  destruct (String.eqb (trim (up_to "=" seg)) name); [reflexivity|exact IH].
Qed.

(** A value that holds an equals sign comes back cut. *)
Example cookie_value_cut :
  Ref2.getCookiesByName "token"
    (mkRequest "/" "GET" [("cookie", "a=1; token=abc=def; token=z")] "")
  = VString "abc".
Proof. vm_compute. reflexivity. Qed.

(** ** Payloads *)

(** X3. The body schema of a route is looked up in the exact controller
    table under the full request URL. A JSON body sent to a URL that is not
    a key of that table (a parametrized route, or an exact route called
    with a query string) is parsed and returned without any validation. *)
Theorem getPayload_json_unvalidated :
  forall validateObject CONTENT_TYPE decodeURIComponent JSON_parse handleMultipart this
         requestServer ct,
    Hdr.get CONTENT_TYPE (req_headers requestServer) = Some ct ->
    Str.includes "multipart/form-data" ct = false ->
    Str.includes "application/x-www-form-urlencoded" ct = false ->
    Str.includes "application/json" ct = true ->
    controller this !! url requestServer = None ->
    getPayload validateObject CONTENT_TYPE decodeURIComponent JSON_parse handleMultipart
               this requestServer
    = prefixed "GET_PAYLOAD_ERROR: " (JSON_parse (req_body requestServer)).
Proof.
  intros vo CT dec parse multi this req ct Hct Hm Hf Hj Hc.
  unfold getPayload, validateJsonPayload. rewrite Hct, Hm, Hf, Hj, Hc.
  destruct (parse (req_body req)); reflexivity.
Qed.

(** The route [/j] declares a body schema; called as [/j?x=1] the body is
    returned although the validator refuses everything. *)
Lemma getPayload_json_unvalidated_witness :
  Ref2.getPayload Ref2.body_server (Ref2.json_request "/j?x=1" "null") = Returns VNull.
Proof.
  unfold Ref2.getPayload.
  rewrite (getPayload_json_unvalidated
             Ref.validateObject Ref.CONTENT_TYPE Ref.decodeURIComponent Ref.JSON_parse
             Ref2.handleMultipart Ref2.body_server (Ref2.json_request "/j?x=1" "null")
             "application/json"); reflexivity.
Defined.

(** X4. When the exact route of the request URL declares a body schema and
    the validator refuses the parsed JSON body, [getPayload] throws the
    validator's error with the message prefixed
    [GET_PAYLOAD_ERROR: VALIDATE_JSON_PAYLOAD_ERROR: ]; the status test of
    the error boundary answers 400 for such an error, whatever [NOT_FOUND]
    is. *)
Theorem getPayload_validation_error :
  forall validateObject CONTENT_TYPE decodeURIComponent JSON_parse handleMultipart this
         requestServer ct c o vs schema payload e,
    Hdr.get CONTENT_TYPE (req_headers requestServer) = Some ct ->
    Str.includes "multipart/form-data" ct = false ->
    Str.includes "application/x-www-form-urlencoded" ct = false ->
    Str.includes "application/json" ct = true ->
    controller this !! url requestServer = Some c ->
    c_options c = Some o ->
    validationSchema o = Some vs ->
    vs_body vs = Some schema ->
    JSON_parse (req_body requestServer) = Returns payload ->
    validateObject payload (Some schema) = Throws e ->
    getPayload validateObject CONTENT_TYPE decodeURIComponent JSON_parse handleMultipart
               this requestServer
    = Throws (mkError (name e)
                      ("GET_PAYLOAD_ERROR: VALIDATE_JSON_PAYLOAD_ERROR: " +:+ message e)) /\
    forall NOT_FOUND,
      error_status NOT_FOUND
                   (mkError (name e)
                            ("GET_PAYLOAD_ERROR: VALIDATE_JSON_PAYLOAD_ERROR: " +:+ message e))
      = 400.
Proof.
  intros vo CT dec parse multi this req ct c o vs schema payload e
         Hct Hm Hf Hj Hc Ho Hvs Hb Hp He.
  split.
  - unfold getPayload, validateJsonPayload.
    rewrite Hct, Hm, Hf, Hj, Hc, Ho, Hvs, Hb, Hp. cbn. rewrite He. reflexivity.
  - intros NF. unfold error_status. cbn [message].
    assert (H : Str.includes "VALIDATE"
                  ("GET_PAYLOAD_ERROR: VALIDATE_JSON_PAYLOAD_ERROR: " +:+ message e) = true).
    { apply includes_spec.
      exists "GET_PAYLOAD_ERROR: ", ("_JSON_PAYLOAD_ERROR: " +:+ message e). reflexivity. }
    rewrite H. reflexivity.
Qed.

Lemma getPayload_validation_error_witness :
  Ref2.getPayload Ref2.body_server (Ref2.json_request "/j" "null")
  = Throws (mkError "Error"
                    "GET_PAYLOAD_ERROR: VALIDATE_JSON_PAYLOAD_ERROR: VALIDATION_ERROR").
Proof.
  apply (getPayload_validation_error
           Ref.validateObject Ref.CONTENT_TYPE Ref.decodeURIComponent Ref.JSON_parse
           Ref2.handleMultipart Ref2.body_server (Ref2.json_request "/j" "null")
           "application/json" Ref2.body_controller
           (mkOptions None (Some (mkValidationSchema None None None (Some Sample.id_schema))))
           (mkValidationSchema None None None (Some Sample.id_schema))
           Sample.id_schema VNull (new_Error "VALIDATION_ERROR")); reflexivity.
Defined.

(** ** Params *)

Lemma up_to_absent (c : ascii) (s : string) : after_first c s = None -> up_to c s = s.
Proof.
  induction s as [|a s IH]; cbn; [reflexivity|].
  destruct (Ascii.eqb a c); [discriminate|]. intros H. rewrite (IH H). reflexivity.
Qed.

Lemma split_absent (c : ascii) (s : string) : after_first c s = None -> Str.split c s = [s].
Proof. intros H. rewrite split_unfold, H, (up_to_absent c s H). reflexivity. Qed.

Lemma split_app_sep (c : ascii) (h rest : string) :
  after_first c h = None ->
  Str.split c (h +:+ String c rest) = h :: Str.split c rest.
Proof.
  induction h as [|a h IH].
  - intros _. change (Str.split c (String c rest) = EmptyString :: Str.split c rest).
    cbn [Str.split]. rewrite Ascii.eqb_refl. reflexivity.
  - change (after_first c (String a h))
      with (if Ascii.eqb a c then Some h else after_first c h).
    change (Str.split c (String a h +:+ String c rest))
      with (if Ascii.eqb a c then EmptyString :: Str.split c (h +:+ String c rest)
            else match Str.split c (h +:+ String c rest) with
                 | x :: t => String a x :: t
                 | [] => [String a EmptyString]
                 end).
    destruct (Ascii.eqb a c); [discriminate|]. intros H. rewrite (IH H). reflexivity.
Qed.

(** Joining segments that do not hold the separator and splitting again
    gives the segments back. *)
Lemma split_join_segments (c : ascii) (segs : list string) :
  segs <> [] ->
  Forall (fun s => after_first c s = None) segs ->
  Str.split c (Str.join (String c EmptyString) segs) = segs.
Proof.
  induction segs as [|s segs IH]; [congruence|]. intros _ Hall.
  apply Forall_cons in Hall as [Hs Hall].
  destruct segs as [|s' segs].
  - cbn. apply split_absent. exact Hs.
  - change (Str.join (String c "") (s :: s' :: segs))
      with (s +:+ String c (Str.join (String c "") (s' :: segs))).
    rewrite split_app_sep by exact Hs. f_equal. apply IH; [discriminate|exact Hall].
Qed.

Lemma find_none_Forall {A} (p : A -> bool) (l : list A) :
  Forall (fun x => p x = false) l -> List.find p l = None.
Proof.
  induction 1 as [|x l Hx _ IH]; [reflexivity|]. cbn. rewrite Hx. exact IH.
Qed.

(** X5. On the path made of a slash and of segments joined by slashes,
    none of them holding a slash, [getParams] returns exactly those
    segments, in order, provided no parametrized controller is registered
    under a key equal to the whole URL: only such a controller's [params]
    schema is ever consulted. *)
Theorem getParams_segments :
  forall validateObject this segs,
    segs <> [] ->
    Forall (fun s => Str.includes "/" s = false) segs ->
    Forall (fun dc => dc_url dc <> "/" +:+ Str.join "/" segs) (dynamicController this) ->
    getParams validateObject this ("/" +:+ Str.join "/" segs)
    = Returns (VArray (map VString segs)).
Proof.
  intros vo this segs Hne Hsegs Hdyn. unfold getParams, validateParams.
  rewrite first_match_find, find_none_Forall.
  - change (Str.drop 1 ("/" +:+ Str.join "/" segs)) with (Str.join "/" segs).
    rewrite split_join_segments; [reflexivity|exact Hne|].
    eapply Forall_impl; [exact Hsegs|]. intros s Hs. cbn in Hs.
    rewrite includes_char in Hs. destruct (after_first "/" s); [discriminate|reflexivity].
  - eapply Forall_impl; [exact Hdyn|]. intros dc Hdc. cbn in Hdc.
    apply String.eqb_neq. exact Hdc.
Qed.

(** The key [/hello] differs from the URL [/hello/42/x]: its schema, if it
    had one, would not be consulted, and the three segments come back. *)
Lemma getParams_segments_witness :
  getParams Ref.validateObject Sample.hello_server "/hello/42/x"
  = Returns (VArray [VString "hello"; VString "42"; VString "x"]).
Proof.
  apply (getParams_segments Ref.validateObject Sample.hello_server ["hello"; "42"; "x"]).
  - discriminate.
  - repeat constructor.
  - repeat constructor. cbn. discriminate.
Defined.

(** ** Requests from end to end *)

Lemma append_empty (s : string) : s +:+ "" = s.
Proof.
  induction s as [|c s IH]; [reflexivity|].
  change (String c (s +:+ "") = String c s). rewrite IH. reflexivity.
Qed.

Lemma includes_refl (s : string) : Str.includes s s = true.
Proof.
  apply includes_spec. exists "", "".
  change (s = s +:+ ""). rewrite append_empty. reflexivity.
Qed.

Section Boundary.

Variable createError : string -> Error -> Error.
Variable validateObject : JsValue -> option Schema -> Result unit.
Variable NOT_FOUND : string.
Variable CONTENT_TYPE : string.
Variable FASTRO_VERSION : string.
Variable respond_throws : Response -> option Error.
Variable utc_now : string.
Variable getCookies : Headers -> JsValue.
Variable renderComponent : Page -> JsValue -> option string -> Result string.
Variable this : Fastro.

Local Abbreviation handleRoute' :=
  (handleRoute createError validateObject NOT_FOUND CONTENT_TYPE respond_throws utc_now
               getCookies renderComponent this).
Local Abbreviation handleMiddleware' :=
  (handleMiddleware createError validateObject NOT_FOUND CONTENT_TYPE respond_throws
                    utc_now getCookies renderComponent this).
Local Abbreviation forEach_middleware' :=
  (forEach_middleware createError validateObject NOT_FOUND CONTENT_TYPE respond_throws
                      utc_now getCookies renderComponent this).
Local Abbreviation handleRequest' :=
  (handleRequest createError validateObject NOT_FOUND CONTENT_TYPE FASTRO_VERSION
                 respond_throws utc_now getCookies renderComponent this).
Local Abbreviation handleRequestError' :=
  (handleRequestError createError NOT_FOUND CONTENT_TYPE respond_throws).
Local Abbreviation error_response' := (error_response NOT_FOUND CONTENT_TYPE).

(** What the error boundary does to the state. *)
Lemma handleRequestError_run (error : Error) (request : Request) (w : World) :
  exists r c,
    handleRequestError' error request w
    = (r, mkWorld (httpStatus w) (contentType w) (response_headers w)
                  (responded w ++ [error_response' error]) c (unhandled w)) /\
    (respond_throws (error_response' error) = None -> r = Returns tt).
Proof.
  unfold handleRequestError, error_response. unfold_U. rewrite stringify_envelope. cbn.
  match goal with |- context [respond_throws ?r] => destruct (respond_throws r) eqn:Hr end;
    cbn; eexists; eexists; (split; [reflexivity|]); intros H;
    [exfalso; assert (Hn : Some e = None) by (rewrite <- Hr; exact H); discriminate Hn|reflexivity].
Qed.

(** A request outside [/] whose dispatch throws ends with the trace of the
    dispatch and one more response, the one of the error boundary. *)
Lemma handleRequest_throws (request : Request) (w w1 : World) (e : Error) tr :
  url request <> "/" ->
  (if Nat.eqb (length (middlewares this)) 0 then handleRoute' request
   else handleMiddleware' request) (started w) = (Throws e, w1, tr) ->
  snd (handleRequest' request w) = tr /\
  responded (snd (fst (handleRequest' request w)))
  = responded w1 ++ [error_response' e].
Proof.
  intros Hurl Hrun. unfold handleRequest.
  apply String.eqb_neq in Hurl. rewrite Hurl.
  unfold MM.try_catch, mbind, M_bind, MM.bind, MM.lift, transformRequest, UM.modify.
  fold (started w). cbn [negb].
  destruct (Nat.eqb (length (middlewares this)) 0); cbn [negb]; rewrite Hrun;
    destruct (handleRequestError_run e request w1) as (r & c & -> & _); cbn;
    rewrite app_nil_r; split; reflexivity.
Qed.

(** A request outside [/] whose dispatch returns ends as the dispatch. *)
Lemma handleRequest_returns (request : Request) (w w1 : World) tr :
  url request <> "/" ->
  (if Nat.eqb (length (middlewares this)) 0 then handleRoute' request
   else handleMiddleware' request) (started w) = (Returns tt, w1, tr) ->
  handleRequest' request w = (Returns tt, w1, tr).
Proof.
  intros Hurl Hrun. unfold handleRequest.
  apply String.eqb_neq in Hurl. rewrite Hurl.
  unfold MM.try_catch, mbind, M_bind, MM.bind, MM.lift, transformRequest, UM.modify.
  fold (started w). cbn [negb].
  destruct (Nat.eqb (length (middlewares this)) 0); cbn [negb]; rewrite Hrun; reflexivity.
Qed.

(** X6. The error boundary isolates the request: when the transport
    accepts every response, [handleRequest] returns normally whatever the
    route tables, the middleware and the handlers do. *)
Theorem handleRequest_never_throws :
  forall request w,
    (forall r, respond_throws r = None) ->
    fst (fst (handleRequest' request w)) = Returns tt.
Proof.
  intros request w Hok. unfold handleRequest, MM.try_catch.
  match goal with |- context [mbind ?k ?m w] => destruct (mbind k m w) as [[[[]|e] w1] tr] end;
    [reflexivity|].
  unfold MM.lift.
  destruct (handleRequestError_run e request w1) as (r & c & -> & Hr).
  cbn. apply Hr, Hok.
Qed.

(** X7. The path [/] is answered before anything else is looked at: no
    middleware runs and routing is not entered. The answer is the stored
    [/index.html] when the store holds truthy content under that key, and
    the version banner otherwise, with status 200. *)
Theorem root_bypasses_dispatch :
  forall request w,
    url request = "/" ->
    snd (handleRequest' request w) = [] /\
    fst (fst (handleRequest' request w)) = Returns tt /\
    match send_body (match static_lookup this "/index.html" with
                     | Some index => index
                     | None => VString ("Fastro v" +:+ FASTRO_VERSION)
                     end) with
    | Returns b =>
        exists h,
          responded (snd (fst (handleRequest' request w)))
          = responded w ++ [mkResponse (Some h) (Some 200) b]
    | Throws _ => responded (snd (fst (handleRequest' request w))) = responded w
    end.
Proof.
  intros request w Hurl. unfold handleRequest. rewrite Hurl, String.eqb_refl.
  unfold MM.try_catch, mbind, M_bind, MM.bind, MM.lift, transformRequest, UM.modify.
  fold (started w).
  assert (Hrun : handleRoot CONTENT_TYPE FASTRO_VERSION respond_throws utc_now this request
                            (started w)
                 = send respond_throws utc_now this
                        (match static_lookup this "/index.html" with
                         | Some index => index
                         | None => VString ("Fastro v" +:+ FASTRO_VERSION)
                         end) (Some 200) None (started w)).
  { unfold handleRoot, static_lookup, request_send.
    destruct (staticFiles this !! "/index.html") as [index|]; [destruct (truthy index)|];
      reflexivity. }
  set (p := match static_lookup this "/index.html" with
            | Some index => index
            | None => VString ("Fastro v" +:+ FASTRO_VERSION)
            end) in *.
  rewrite Hrun.
  destruct (send_run respond_throws utc_now this p (Some 200) None (started w))
    as (w' & Hs & _ & _ & _ & _ & H).
  rewrite Hs. cbn in *. split; [reflexivity|]. split; [reflexivity|].
  destruct (send_body p) as [b|e].
  - destruct H as (h & H & _). exists h. exact H.
  - destruct H as [H _]. exact H.
Qed.

(** From here on [createError] is taken to keep the message of the error it
    wraps, and [NOT_FOUND] not to hold the validation marker. *)
Hypothesis createError_message :
  forall label e, message (createError label e) = message e.
Hypothesis NOT_FOUND_plain : Str.includes "VALIDATE" NOT_FOUND = false.

Lemma not_found_response (e : Error) :
  message e = NOT_FOUND ->
  error_response' e
  = mkResponse (Some [(Str.lower CONTENT_TYPE, "application/json")]) (Some 404)
               (Some (BodyText (error_envelope NOT_FOUND))).
Proof.
  intros He. unfold error_response, error_status.
  rewrite He, includes_refl, NOT_FOUND_plain. reflexivity.
Qed.

Lemma validation_response (e : Error) :
  Str.includes "VALIDATE" (message e) = true ->
  error_response' e
  = mkResponse (Some [(Str.lower CONTENT_TYPE, "application/json")]) (Some 400)
               (Some (BodyText (error_envelope (message e)))).
Proof. intros He. unfold error_response, error_status. rewrite He. reflexivity. Qed.

(** X8. Without middleware, a request outside [/] that no table answers
    (no exact controller, no parametrized controller, no page, no truthy
    static file) enters routing once, invokes no handler, and gets exactly
    one response: status 404 with the JSON envelope of [NOT_FOUND]. *)
Theorem unknown_route_404 :
  forall request w,
    url request <> "/" ->
    middlewares this = [] ->
    resolve this (url request) = RNotFound ->
    snd (handleRequest' request w) = [GEnterRoute] /\
    responded (snd (fst (handleRequest' request w)))
    = responded w ++
      [mkResponse (Some [(Str.lower CONTENT_TYPE, "application/json")]) (Some 404)
                  (Some (BodyText (error_envelope NOT_FOUND)))].
Proof.
  intros request w Hurl Hmw Hres.
  rewrite <- (not_found_response
                (createError "HANDLE_ROUTE_ERROR"
                   (createError "HANDLE_DYNAMIC_PARAMS_ERROR"
                      (createError "HANDLE_STATIC_FILE_ERROR" (new_Error NOT_FOUND)))))
    by (rewrite !createError_message; reflexivity).
  apply (handleRequest_throws request w (started w)); [exact Hurl|].
  rewrite Hmw. cbn [length Nat.eqb].
  rewrite handleRoute_resolves, Hres. reflexivity.
Qed.


Lemma validateHeaders_marker (hs : Headers) (schema : option Schema) (e : Error) :
  validateHeaders validateObject hs schema = Throws e ->
  Str.includes "VALIDATE" (message e) = true.
Proof.
  unfold validateHeaders, prefixed.
  match goal with |- context [match ?x with Returns _ => _ | Throws _ => _ end] =>
    destruct x as [?|e0] end; [discriminate|].
  intros H. injection H as <-. apply includes_spec.
  exists "", ("_HEADERS_ERROR: " +:+ message e0). reflexivity.
Qed.

Lemma controller_header_check_marker options request (e : Error) :
  controller_header_check validateObject options request = Throws e ->
  Str.includes "VALIDATE" (message e) = true.
Proof.
  unfold controller_header_check.
  destruct options as [o|]; [|discriminate].
  destruct (validationSchema o) as [vs|]; [|discriminate].
  destruct (vs_headers vs) as [schema|]; [|discriminate].
  apply validateHeaders_marker.
Qed.





(** X14. A page whose rendering throws gets no response at all: the
    rendering runs in an [async] function nobody awaits, so the error does
    not reach the error boundary. Without middleware, the request for a page
    without props whose renderer throws enters routing, invokes the page,
    writes nothing, and leaves the wrapped error as an unhandled rejection. *)
Theorem page_render_failure_no_response :
  forall request w p e,
    url request <> "/" ->
    middlewares this = [] ->
    resolve this (url request) = RPage p ->
    p_props p = NoProps ->
    (forall t, renderComponent p VUndefined t = Throws e) ->
    handleRequest' request w
    = (Returns tt,
       mkWorld None None [] (responded w) (console w)
               (unhandled w ++ [createError "SEND_HTML_ERROR" e]),
       [GEnterRoute; GTerminal (ToPage (url request))]).
Proof.
  intros request w p e Hurl Hmw Hres Hprops Hrender.
  apply handleRequest_returns; [exact Hurl|].
  rewrite Hmw. cbn [length Nat.eqb].
  rewrite handleRoute_resolves, Hres.
  assert (Hhtml : sendHTML createError validateObject CONTENT_TYPE respond_throws utc_now
                           getCookies renderComponent this p request (started w)
                  = (Returns tt,
                     mkWorld None None [] (responded w) (console w)
                             (unhandled w ++ [createError "SEND_HTML_ERROR" e]))).
  { unfold sendHTML, UM.detached. unfold_U. rewrite Hprops.
    destruct (p_options p) as [o|]; [destruct (template o) as [[|c t]|]|];
      cbn; rewrite Hrender; reflexivity. }
  unfold terminal, run_page, guarded. unfold_M. rewrite Hhtml. reflexivity.
Qed.

End Boundary.

(** ** Registration of routes *)

Lemma find_app_last {A} (p : A -> bool) (l : list A) (x : A) :
  List.find p (l ++ [x])
  = match List.find p l with
    | Some y => Some y
    | None => if p x then Some x else None
    end.
Proof.
  induction l as [|y l IH]; cbn; [reflexivity|].
  destruct (p y); [reflexivity|exact IH].
Qed.

(** X15. Registering a controller without [params] stores it in the exact
    table under its key, with [/prefix] put in front when the module
    declares a prefix. From then on that key resolves to the new
    controller, whatever was registered before, and every other URL
    resolves as it did. *)
Theorem nativeImport_exact_controller :
  forall this fileKey prefix c,
    let key := match prefix with
               | Some (String a p) => "/" +:+ String a p +:+ fileKey
               | _ => fileKey
               end in
    let this' := nativeImport this fileKey prefix false (ImportedController c) in
    controller this' !! key = Some c /\
    resolve this' key = RController c /\
    forall url, url <> key -> resolve this' url = resolve this url.
Proof.
  intros this fileKey prefix c. cbn zeta.
  assert (Hkey : forall k : string,
             let this' := mkFastro (appStatus this) (corsEnabled this)
                                   (<[k := c]> (controller this))
                                   (dynamicController this) (pages this) (dynamicPage this)
                                   (middlewares this) (staticFiles this) (templateFiles this) in
             controller this' !! k = Some c /\
             resolve this' k = RController c /\
             forall url, url <> k -> resolve this' url = resolve this url).
  { intros k. cbn zeta. split; [|split].
    - cbn. apply lookup_insert_eq.
    - unfold resolve. cbn. rewrite lookup_insert_eq. reflexivity.
    - intros url Hne. unfold resolve, static_lookup. cbn.
      rewrite lookup_insert_ne by congruence. reflexivity. }
  unfold nativeImport. destruct prefix as [[|a p]|]; cbn [truthy_string]; apply Hkey.
Qed.

(** X16. Registering a parametrized controller appends it to the list:
    a URL that an exact controller or an earlier parametrized controller
    answers keeps its answer, and a URL that neither answers goes to the
    new controller as soon as it contains the new key (with [/prefix] in
    front when the module declares a prefix), before any page or static
    file. *)
Theorem nativeImport_dynamic_controller :
  forall this fileKey prefix c url,
    let key := match prefix with
               | Some (String a p) => "/" +:+ String a p +:+ fileKey
               | _ => fileKey
               end in
    let this' := nativeImport this fileKey prefix true (ImportedController c) in
    resolve this' url
    = match resolve this url with
      | RController c0 => RController c0
      | RDynamicController dc => RDynamicController dc
      | r => if Str.includes key url
             then RDynamicController (mkDynamicController key c)
             else r
      end.
Proof.
  intros this fileKey prefix c url. cbn zeta.
  assert (Hkey : forall k : string,
             resolve (mkFastro (appStatus this) (corsEnabled this) (controller this)
                               (dynamicController this ++ [mkDynamicController k c])
                               (pages this) (dynamicPage this) (middlewares this)
                               (staticFiles this) (templateFiles this)) url
             = match resolve this url with
               | RController c0 => RController c0
               | RDynamicController dc => RDynamicController dc
               | r => if Str.includes k url
                      then RDynamicController (mkDynamicController k c)
                      else r
               end).
  { intros k. unfold resolve, static_lookup. cbn.
    destruct (controller this !! url) as [c0|]; [reflexivity|].
    rewrite find_app_last.
    destruct (List.find _ (dynamicController this)) as [dc|]; [reflexivity|]. cbn.
    destruct (Str.includes k url); destruct (pages this !! url); try reflexivity;
      destruct (List.find _ (dynamicPage this)); try reflexivity;
      destruct (staticFiles this !! url) as [f|];
      [destruct (truthy f)| |destruct (truthy f)|]; reflexivity. }
  unfold nativeImport. destruct prefix as [[|a p]|]; cbn [truthy_string]; apply Hkey.
Qed.

(** ** The query object *)

Lemma obj_get_set_same (k : string) (v : JsValue) (o : list (string * JsValue)) :
  obj_get k (obj_set k v o) = v.
Proof.
  unfold obj_get. induction o as [|[k' v'] o IH]; cbn.
  - rewrite String.eqb_refl. reflexivity.
  - destruct (String.eqb k' k) eqn:Hk; cbn.
    + rewrite String.eqb_refl. reflexivity.
    + rewrite Hk. exact IH.
Qed.

Lemma obj_get_set_other (k k' : string) (v : JsValue) (o : list (string * JsValue)) :
  k <> k' -> obj_get k (obj_set k' v o) = obj_get k o.
Proof.
  intros Hne. unfold obj_get. induction o as [|[k0 v0] o IH]; cbn.
  - assert (String.eqb k' k = false) as -> by (apply String.eqb_neq; congruence).
    reflexivity.
  - destruct (String.eqb k0 k') eqn:Hk; cbn.
    + apply String.eqb_eq in Hk. subst k0.
      assert (String.eqb k' k = false) as -> by (apply String.eqb_neq; congruence).
      reflexivity.
    + destruct (String.eqb k0 k); [reflexivity|exact IH].
Qed.

Lemma obj_set_keys (k : string) (v : JsValue) (o : list (string * JsValue)) :
  forall x, In x (map fst (obj_set k v o)) <-> x = k \/ In x (map fst o).
Proof.
  intros x. induction o as [|[k' v'] o IH]; cbn.
  - intuition.
  - destruct (String.eqb k' k) eqn:Hk; cbn.
    + apply String.eqb_eq in Hk. subst k'. intuition.
    + rewrite IH. intuition.
Qed.

Lemma obj_set_NoDup (k : string) (v : JsValue) (o : list (string * JsValue)) :
  List.NoDup (map fst o) -> List.NoDup (map fst (obj_set k v o)).
Proof.
  induction o as [|[k' v'] o IH]; cbn; intros Hnd.
  - repeat constructor. intros [].
  - apply List.NoDup_cons_iff in Hnd as [Hfresh Hnd].
    destruct (String.eqb k' k) eqn:Hk; cbn.
    + apply String.eqb_eq in Hk. subst k'. constructor; assumption.
    + apply String.eqb_neq in Hk. constructor; [|exact (IH Hnd)].
      rewrite obj_set_keys. intros [->|Hin]; [congruence|contradiction].
Qed.

Lemma fold_add_pair_get (segs : list string) :
  forall (o : list (string * JsValue)) (k : string),
    obj_get k (fold_left add_pair segs o)
    = match List.find (fun seg => String.eqb (up_to "=" seg) k) (rev segs) with
      | Some seg => snd (pair_of seg)
      | None => obj_get k o
      end.
Proof.
  induction segs as [|s segs IH]; intros o k; [reflexivity|].
  cbn [fold_left rev]. rewrite IH, find_app_last.
  destruct (List.find _ (rev segs)); [reflexivity|].
  rewrite add_pair_spec. cbn [pair_of fst snd].
  destruct (String.eqb (up_to "=" s) k) eqn:Hk.
  - apply String.eqb_eq in Hk. subst k. apply obj_get_set_same.
  - apply String.eqb_neq in Hk. apply obj_get_set_other. congruence.
Qed.

Lemma fold_add_pair_NoDup (segs : list string) :
  forall o : list (string * JsValue),
    List.NoDup (map fst o) -> List.NoDup (map fst (fold_left add_pair segs o)).
Proof.
  induction segs as [|s segs IH]; intros o Hnd; [exact Hnd|].
  cbn [fold_left]. apply IH. rewrite add_pair_spec. apply obj_set_NoDup. exact Hnd.
Qed.


(** ** Templates, [json] and a sample controller *)

(** What [request.send] hands to the internal [send]. *)
Lemma request_send_run CONTENT_TYPE respond_throws utc_now this payload status headers w :
  request_send CONTENT_TYPE respond_throws utc_now this payload status headers w
  = send respond_throws utc_now this payload
      (Some (match httpStatus w with
             | Some n => if n =? 0 then 200 else n
             | None => 200
             end))
      (match contentType w with
       | Some (String c ct) => Some [(Str.lower CONTENT_TYPE, String c ct)]
       | _ => headers
       end) w.
Proof.
  unfold request_send. unfold_U. unfold truthy_status.
  destruct (httpStatus w) as [n|]; [destruct (n =? 0)|];
    destruct (contentType w) as [[|c ct]|]; reflexivity.
Qed.

(** X18. [view] with the name of a template that is not in the store does
    not fail: it sends the text [undefined], with the staged status (200
    when none, or zero, was staged), whatever the options. *)
Theorem view_missing_template :
  forall CONTENT_TYPE respond_throws utc_now replaceAll this template options w,
    templateFiles this !! template = None ->
    fst (view CONTENT_TYPE respond_throws utc_now replaceAll this template options w)
    = Returns tt /\
    exists h,
      responded (snd (view CONTENT_TYPE respond_throws utc_now replaceAll this template
                           options w))
      = responded w ++
        [mkResponse (Some h)
                    (Some (match httpStatus w with
                           | Some n => if n =? 0 then 200 else n
                           | None => 200
                           end))
                    (Some (BodyText "undefined"))].
Proof.
  intros CT rt now rep this template options w Hnone.
  unfold view. rewrite Hnone. unfold UM.try_catch, mbind, U_bind, UM.bind, UM.of_result.
  rewrite request_send_run.
  match goal with |- context [send rt now this VUndefined ?st ?hs w] =>
    destruct (send_run rt now this VUndefined st hs w) as (w' & -> & _ & _ & _ & _ & H)
  end.
  cbn in *. split; [reflexivity|]. destruct H as (h & H & _). exists h. exact H.
Qed.

Lemma view_missing_template_witness :
  exists h,
    responded (snd (view Ref.CONTENT_TYPE Ref.respond_throws Ref.utc_now
                         (fun html _ _ => Returns html) Ref.empty_server
                         "index.template.html" (Some [("title", VString "Hello")])
                         fresh_world))
    = [mkResponse (Some h) (Some 200) (Some (BodyText "undefined"))].
Proof.
  destruct (view_missing_template Ref.CONTENT_TYPE Ref.respond_throws Ref.utc_now
              (fun html _ _ => Returns html) Ref.empty_server "index.template.html"
              (Some [("title", VString "Hello")]) fresh_world eq_refl) as [_ [h Hh]].
  exists h. exact Hh.
Defined.

(** X19. [json] forces the content type: whatever content type was staged
    with [type] and whatever cookie is staged, the response carries
    [Content-Type: application/json]. The staged status is used as it is,
    and 200 when none was staged. *)
Theorem request_json_content_type :
  forall CONTENT_TYPE respond_throws utc_now this payload w b,
    Str.lower CONTENT_TYPE = "content-type" ->
    send_body payload = Returns b ->
    exists h,
      responded (snd (request_json CONTENT_TYPE respond_throws utc_now this payload w))
      = responded w ++ [mkResponse (Some h) (Some (default 200 (httpStatus w))) b] /\
      Hdr.get "Content-Type" h = Some "application/json".
Proof.
  intros CT rt now this payload w b HCT Hb.
  unfold request_json. unfold mbind, U_bind, UM.bind, UM.get.
  assert (Hset : Hdr.set CT "application/json" [] = [("content-type", "application/json")]).
  { unfold Hdr.set. rewrite HCT. reflexivity. }
  rewrite Hset.
  eexists. split; [apply (send_run_headers rt now this payload _ _ w b Hb)|].
  cbn [default].
  destruct (Hdr.get "set-cookie" (response_headers w)) as [[|c s]|];
    destruct (corsEnabled this); cbn [truthy_string];
    hdr_fixed; reflexivity.
Qed.

Lemma request_json_content_type_witness :
  exists h,
    responded (snd (request_json Ref.CONTENT_TYPE Ref.respond_throws Ref.utc_now
                                 Ref.empty_server (VBool true)
                                 (mkWorld (Some 201) (Some "text/html") [] [] [] [])))
    = [mkResponse (Some h) (Some 201) (Some (BodyText "true"))] /\
    Hdr.get "Content-Type" h = Some "application/json".
Proof.
  apply (request_json_content_type Ref.CONTENT_TYPE Ref.respond_throws Ref.utc_now
           Ref.empty_server (VBool true)
           (mkWorld (Some 201) (Some "text/html") [] [] [] [])
           (Some (BodyText "true"))); reflexivity.
Defined.

Lemma getQuery_unfold validateObject this key (url : string) :
  getQuery validateObject this key url
  = prefixed "GET_QUERY_ERROR: "
      (match url with
       | EmptyString => Throws (new_Error "Url empty")
       | _ =>
           match query_part url with
           | None | Some EmptyString => Throws (new_Error "Query not found")
           | Some q =>
               _ ← validateQuery validateObject this (VObject (pairs_of q)) url;
               Returns (VObject
                          (match key with
                           | Some (String c k) =>
                               [(String c k, obj_get (String c k) (pairs_of q))]
                           | _ => pairs_of q
                           end))
           end
       end).
Proof.
  unfold getQuery, query_part, pairs_of. rewrite split_second.
  destruct url as [|a url]; [reflexivity|].
  cbn [truthy_string negb].
  destruct (after_first "?" (String a url)) as [r|]; cbn [fmap option_fmap option_map];
    [|reflexivity].
  destruct (up_to "?" r) as [|b q] eqn:Hq; [reflexivity|].
  cbn [truthy_string negb]. rewrite fold_add_pair.
  destruct key as [[|c k]|]; reflexivity.
Qed.



(** ** Closed instances of the boundary properties *)

Lemma handleRequest_never_throws_witness :
  fst (fst (Ref.handleRequest Sample.pass_fail_server (Ref.GET "/x") fresh_world))
  = Returns tt.
Proof.
  apply (handleRequest_never_throws Ref.createError Ref.validateObject Ref.NOT_FOUND
           Ref.CONTENT_TYPE Ref.FASTRO_VERSION Ref.respond_throws Ref.utc_now
           Ref.getCookies Ref.renderComponent Sample.pass_fail_server (Ref.GET "/x")
           fresh_world).
  intros r. reflexivity.
Defined.

Lemma root_bypasses_dispatch_witness :
  snd (Ref.handleRequest Sample.two_pass_server (Ref.GET "/") fresh_world) = [] /\
  exists h,
    responded (snd (fst (Ref.handleRequest Sample.two_pass_server (Ref.GET "/")
                                           fresh_world)))
    = [mkResponse (Some h) (Some 200) (Some (BodyText "Fastro v0.0.0"))].
Proof.
  destruct (root_bypasses_dispatch Ref.createError Ref.validateObject Ref.NOT_FOUND
              Ref.CONTENT_TYPE Ref.FASTRO_VERSION Ref.respond_throws Ref.utc_now
              Ref.getCookies Ref.renderComponent Sample.two_pass_server (Ref.GET "/")
              fresh_world eq_refl) as (Ht & _ & Hr).
  split; [exact Ht|exact Hr].
Defined.

Lemma unknown_route_404_witness :
  responded (snd (fst (Ref.handleRequest Sample.file_server (Ref.GET "/b.css") fresh_world)))
  = [mkResponse (Some [("content-type", "application/json")]) (Some 404)
                (Some (BodyText (error_envelope "NOT_FOUND")))].
Proof.
  apply (unknown_route_404 Ref.createError Ref.validateObject Ref.NOT_FOUND
           Ref.CONTENT_TYPE Ref.FASTRO_VERSION Ref.respond_throws Ref.utc_now
           Ref.getCookies Ref.renderComponent Sample.file_server
           (fun _ _ => eq_refl) eq_refl (Ref.GET "/b.css") fresh_world);
    [discriminate|reflexivity|reflexivity].
Defined.






Lemma page_render_failure_no_response_witness :
  handleRequest Ref.createError Ref.validateObject Ref.NOT_FOUND Ref.CONTENT_TYPE
                Ref.FASTRO_VERSION Ref.respond_throws Ref.utc_now Ref.getCookies
                Ref2.failing_render Ref2.page_server (Ref.GET "/p") fresh_world
  = (Returns tt,
     mkWorld None None [] [] [] [mkError "SEND_HTML_ERROR" "render"],
     [GEnterRoute; GTerminal (ToPage "/p")]).
Proof.
  apply (page_render_failure_no_response Ref.createError Ref.validateObject Ref.NOT_FOUND
           Ref.CONTENT_TYPE Ref.FASTRO_VERSION Ref.respond_throws Ref.utc_now
           Ref.getCookies Ref2.failing_render Ref2.page_server (Ref.GET "/p") fresh_world
           Ref2.plain_page (new_Error "render"));
    [discriminate|reflexivity|reflexivity|reflexivity|reflexivity].
Defined.

(** ** Static files *)

(** X21. Without middleware, a request outside [/] that resolves to a
    static file gets the file's content with status 200, and the content
    type goes by the first of [.svg], [.png], [.jpeg], [.css], [.html],
    [.json], [favicon.ico] that occurs anywhere in the path, not by the
    path's ending; a path with none of them (a script, say) is served with
    no content type at all. *)
Theorem static_file_served :
  forall createError validateObject NOT_FOUND CONTENT_TYPE FASTRO_VERSION respond_throws
         utc_now getCookies renderComponent this request w content b,
    Str.lower CONTENT_TYPE = "content-type" ->
    url request <> "/" ->
    middlewares this = [] ->
    resolve this (url request) = RStaticFile content ->
    send_body content = Returns b ->
    let run := handleRequest createError validateObject NOT_FOUND CONTENT_TYPE
                             FASTRO_VERSION respond_throws utc_now getCookies
                             renderComponent this request w in
    snd run = [GEnterRoute; GTerminal (ToStaticFile (url request))] /\
    exists h,
      responded (snd (fst run)) = responded w ++ [mkResponse (Some h) (Some 200) b] /\
      Hdr.get "Content-Type" h
      = if Str.includes ".svg" (url request) then Some "image/svg+xml"
        else if Str.includes ".png" (url request) then Some "image/png"
        else if Str.includes ".jpeg" (url request) then Some "image/jpeg"
        else if Str.includes ".css" (url request) then Some "text/css"
        else if Str.includes ".html" (url request) then Some "text/html"
        else if Str.includes ".json" (url request) then Some "application/json"
        else if Str.includes "favicon.ico" (url request) then Some "image/ico"
        else None.
Proof.
  intros ce vo NF CT FV rt now gc rc this request w content b HCT Hurl Hmw Hres Hb.
  cbn zeta.
  set (hs := static_content_type CT (url request) []).
  destruct (send_run rt now this content (Some 200) (Some hs) (started w))
    as (w' & Hs & _).
  pose proof (send_run_headers rt now this content (Some 200) (Some hs) (started w) b Hb)
    as Hh.
  cbn zeta in Hh. rewrite Hs in Hh. cbn [snd default started response_headers responded] in Hh.
  assert (Hrun : handleRequest ce vo NF CT FV rt now gc rc this request w
                 = (Returns tt, w', [GEnterRoute; GTerminal (ToStaticFile (url request))])).
  { apply handleRequest_returns; [exact Hurl|].
    rewrite Hmw. cbn [length Nat.eqb].
    rewrite handleRoute_resolves, Hres.
    unfold terminal, guarded, run_static, MM.try_catch, MM.ghost, MM.lift,
      mbind, M_bind, MM.bind.
    rewrite request_send_run. cbn [started httpStatus contentType].
    fold (started w). fold hs. rewrite Hs. reflexivity. }
  rewrite Hrun. cbn [fst snd]. split; [reflexivity|].
  eexists. split; [exact Hh|].
  cbn [Hdr.get List.find fmap option_fmap option_map].
  destruct (corsEnabled this); hdr_fixed; unfold hs, static_content_type;
    repeat match goal with
           | |- context [if Str.includes ?a ?u then _ else _] =>
               destruct (Str.includes a u)
           end;
    try (unfold Hdr.set; rewrite HCT); reflexivity.
Qed.

Lemma static_file_served_witness :
  exists h,
    responded (snd (fst (Ref.handleRequest
                           (mkFastro "Fastro/0.0.0 (UNREGISTERED)" true ∅ [] ∅ [] []
                                     {["/logo.svg.json" := VString "{}"]} ∅)
                           (Ref.GET "/logo.svg.json") fresh_world)))
    = [mkResponse (Some h) (Some 200) (Some (BodyText "{}"))] /\
    Hdr.get "Content-Type" h = Some "image/svg+xml".
Proof.
  destruct (static_file_served Ref.createError Ref.validateObject Ref.NOT_FOUND
              Ref.CONTENT_TYPE Ref.FASTRO_VERSION Ref.respond_throws Ref.utc_now
              Ref.getCookies Ref.renderComponent
              (mkFastro "Fastro/0.0.0 (UNREGISTERED)" true ∅ [] ∅ [] []
                        {["/logo.svg.json" := VString "{}"]} ∅)
              (Ref.GET "/logo.svg.json") fresh_world (VString "{}") (Some (BodyText "{}"))
              eq_refl) as [_ H];
    [discriminate|reflexivity|reflexivity|reflexivity|exact H].
Defined.
